(** * PDF packet assembly: a shallow embedding of the packet service and the
    document service, with the properties of their specification.

    The TypeScript sources embedded here are
    - class [PDFService] ([src/services/pdfService.ts], kept in this
      snapshot inside [src/lib/supabaseClient.ts]),
    - class [DocumentService] ([src/services/documentService.ts]).

    JavaScript strings are modelled as [string] (sequences of 8-bit code
    units), binary content as [list byte], numbers that the code uses as
    integers as [Z].  Asynchronous calls are modelled by their outcome: a
    value of type [Result] together with the list of external requests that
    were issued (a writer over [Event]). *)

From Stdlib Require Import ZArith NArith List String Ascii Bool Lia.
From Stdlib Require Import Permutation Sorted Strings.Byte DecimalString.
Import ListNotations.

Local Open Scope string_scope.
Local Open Scope Z_scope.

(* ================================================================= *)
(** ** JavaScript values used by the services *)

Module Js.

(** What a [throw] carries.  [ErrorObj], [TypeErrorObj] and
    [SyntaxErrorObj] are instances of [Error]; [NonError] stands for any
    other thrown value (a rejected event, a plain object). *)
Inductive Thrown : Type :=
| ErrorObj (message : string)
| TypeErrorObj (message : string)
| SyntaxErrorObj (message : string)
| NonError (description : string).

Definition instanceofError (e : Thrown) : bool :=
  match e with
  | NonError _ => false
  | _ => true
  end.

Definition instanceofTypeError (e : Thrown) : bool :=
  match e with
  | TypeErrorObj _ => true
  | _ => false
  end.

Definition message (e : Thrown) : string :=
  match e with
  | ErrorObj m | TypeErrorObj m | SyntaxErrorObj m => m
  | NonError _ => EmptyString
  end.

(** Outcome of a call that may throw (or of a promise that may reject). *)
Inductive Result (A : Type) : Type :=
| Ok (a : A)
| Throw (e : Thrown).
Arguments Ok {A} a.
Arguments Throw {A} e.

(** A value of type [string | null], with the [undefined] that an
    out-of-range array read produces. *)
Inductive StringOrNull : Type :=
| Null
| Undefined
| Str (s : string).

(** [s.length === 0], the only falsy string. *)
Definition emptyb (s : string) : bool :=
  match s with
  | EmptyString => true
  | String _ _ => false
  end.

(** [a || b] on strings. *)
Definition or_string (a b : string) : string :=
  if emptyb a then b else a.

(** [s.startsWith(p)] *)
Definition startsWith (s p : string) : bool := String.prefix p s.

(** [s.endsWith(p)] *)
Definition endsWith (s p : string) : bool :=
  if (String.length p <=? String.length s)%nat
  then String.eqb (String.substring (String.length s - String.length p)
                                    (String.length p) s) p
  else false.

(** [s.includes(p)] *)
Fixpoint includes (s p : string) : bool :=
  String.prefix p s ||
  match s with
  | EmptyString => false
  | String _ s' => includes s' p
  end.

(** [s.split(sep)] for a one-character separator: never the empty list. *)
Fixpoint split (sep : ascii) (s : string) : list string :=
  match s with
  | EmptyString => [EmptyString]
  | String c s' =>
      if Ascii.eqb c sep then EmptyString :: split sep s'
      else match split sep s' with
           | [] => [String c EmptyString]
           | h :: t => String c h :: t
           end
  end.

(** [arr[i]] on an array of strings. *)
Definition index (l : list string) (i : nat) : StringOrNull :=
  match nth_error l i with
  | Some s => Str s
  | None => Undefined
  end.

(** [arr.pop()] on a non-empty array of strings. *)
Definition pop (l : list string) : string := last l EmptyString.

Definition lower_ascii (c : ascii) : ascii :=
  let n := nat_of_ascii c in
  if ((65 <=? n) && (n <=? 90))%nat then ascii_of_nat (n + 32) else c.

(** [s.toLowerCase()] on the ASCII range. *)
Fixpoint toLowerCase (s : string) : string :=
  match s with
  | EmptyString => EmptyString
  | String c s' => String (lower_ascii c) (toLowerCase s')
  end.

(** The decimal rendering of an integer inside a template literal. *)
Definition of_int (z : Z) : string := NilZero.string_of_int (Z.to_int z).


End Js.

Export Js.

(* ================================================================= *)
(** ** Standard base64 (RFC 4648, alphabet with [+] and [/], padding kept,
       no line folding), as the host's [FileReader.readAsDataURL] writes it
       and as a receiver reads it back *)

Module Base64.

Definition alphabet : string :=
  "ABCDEFGHIJKLMNOPQRSTUVWXYZabcdefghijklmnopqrstuvwxyz0123456789+/".

Definition pad : ascii := "="%char.

(** The character of a 6-bit group. *)
Definition sextet_char (n : N) : ascii :=
  match String.get (N.to_nat n) alphabet with
  | Some c => c
  | None => pad
  end.



Definition byte_of (n : N) : byte :=
  match Byte.of_N n with
  | Some b => b
  | None => x00
  end.

Fixpoint encode (bs : list byte) : string :=
  match bs with
  | [] => EmptyString
  | [a] =>
      let x := Byte.to_N a in
      String (sextet_char (x / 4))
        (String (sextet_char ((x mod 4) * 16))
           (String pad (String pad EmptyString)))
  | [a; b] =>
      let x := Byte.to_N a in
      let y := Byte.to_N b in
      String (sextet_char (x / 4))
        (String (sextet_char ((x mod 4) * 16 + y / 16))
           (String (sextet_char ((y mod 16) * 4))
              (String pad EmptyString)))
  | a :: b :: c :: rest =>
      let x := Byte.to_N a in
      let y := Byte.to_N b in
      let z := Byte.to_N c in
      String (sextet_char (x / 4))
        (String (sextet_char ((x mod 4) * 16 + y / 16))
           (String (sextet_char ((y mod 16) * 4 + z / 64))
              (String (sextet_char (z mod 64)) (encode rest))))
  end%N.


End Base64.

(* ================================================================= *)
(** ** Data model *)

(** A row of the [documents] table. *)
Module DbRow.
Record t : Type := mk {
  id : string;
  name : string;
  description : option string;
  filename : string;
  file_url : string;
  size : option Z;
  type : string;
  product_type : string;
  required : option bool
}.
End DbRow.

Module Document.
Record t : Type := mk {
  id : string;
  name : string;
  description : string;
  filename : string;
  url : string;
  size : Z;
  type : string;
  required : bool;
  products : list string;
  productType : string
}.
End Document.

Module SelectedDocument.
Record t : Type := mk {
  id : string;
  document : Document.t;
  selected : bool;
  order : Z
}.
End SelectedDocument.

Module StatusFlags.
Record t : Type := mk {
  forReview : bool;
  forApproval : bool;
  forRecord : bool;
  forInformationOnly : bool
}.
End StatusFlags.

Module SubmittalFlags.
Record t : Type := mk {
  tds : bool;
  threePartSpecs : bool;
  testReportIccEsr5194 : bool;
  testReportIccEsl1645 : bool;
  fireAssembly : bool;
  fireAssembly01 : bool;
  fireAssembly02 : bool;
  fireAssembly03 : bool;
  msds : bool;
  leedGuide : bool;
  installationGuide : bool;
  warranty : bool;
  samples : bool;
  other : bool
}.
End SubmittalFlags.

(** [Partial<ProjectFormData>]: every field may be absent.  The fields the
    packet service does not read are kept as a list of named values. *)
Module ProjectFormData.
Record t : Type := mk {
  productType : option string;
  status : option StatusFlags.t;
  submittalType : option SubmittalFlags.t;
  otherFields : list (string * string)
}.
End ProjectFormData.

(** The [projectData] object of the request: the caller's fields with
    [status] and [submittalType] always set. *)
Module ProjectData.
Record t : Type := mk {
  productType : option string;
  otherFields : list (string * string);
  status : StatusFlags.t;
  submittalType : SubmittalFlags.t
}.
End ProjectData.

Module DocumentEntry.
Record t : Type := mk {
  id : string;
  name : string;
  url : string;
  type : string;
  fileData : option string
}.
End DocumentEntry.

Module Payload.
Record t : Type := mk {
  projectData : ProjectData.t;
  documents : list DocumentEntry.t;
  selectedDocumentNames : list string;
  allAvailableDocuments : list string
}.
End Payload.

Module Blob.
Record t : Type := mk {
  type : string;
  bytes : list byte
}.
End Blob.

(** A browser [File]: [bytes] is the outcome of reading it. *)
Module File.
Record t : Type := mk {
  name : string;
  type : string;
  size : Z;
  bytes : Result (list byte)
}.
End File.

(** The object passed to [insert] on the [documents] table. *)
Module InsertRow.
Record t : Type := mk {
  name : string;
  description : string;
  filename : string;
  file_url : string;
  size : Z;
  type : string;
  product_type : string;
  required : bool
}.
End InsertRow.

(** A parsed JSON value (numbers restricted to the integers). *)
#[warnings="-register-all"] Inductive Json : Type :=
| JNull
| JBool (b : bool)
| JNumber (z : Z)
| JString (s : string)
| JArray (elements : list Json)
| JObject (properties : list (string * Json)).

(** The response of the worker: its status line and its body, given as the
    bytes, as the text and as the result of parsing the text as JSON
    ([None] when it is not JSON). *)
Module Response.
Record t : Type := mk {
  status : Z;
  statusText : string;
  body_bytes : list byte;
  body_text : string;
  body_json : option Json
}.

(** [response.ok] *)
Definition ok (r : t) : bool := (200 <=? status r) && (status r <=? 299).
End Response.

(* ================================================================= *)
(** ** External requests and the outcome of a call *)

Inductive Event : Type :=
| DbSelectDocument (id : string)
| DbSelectByProductType (productType : option string)
| HttpGet (url : string)
| WorkerPost (url : string) (payload : Payload.t)
| AuthGetUser
| StorageUpload (path : string) (file : File.t)
| StorageRemove (path : string)
| DbInsert (row : InsertRow.t)
| CreateObjectURL (bytes : list byte) (type : string)
| AnchorClick (href : string) (download : string)
| RevokeObjectURL (url : string).

(** The outcome of a call and the requests it issued, in order. *)
Definition M (A : Type) : Type := (Result A * list Event)%type.

Definition ret {A} (a : A) : M A := (Ok a, []).

Definition throw {A} (e : Thrown) : M A := (Throw e, []).

Definition bind {A B} (m : M A) (f : A -> M B) : M B :=
  match m with
  | (Ok a, t) => let (r, t') := f a in (r, (t ++ t')%list)
  | (Throw e, t) => (Throw e, t)
  end.

(** Issue the request [ev]; [r] is what it answers. *)
Definition request {A} (ev : Event) (r : Result A) : M A := (r, [ev]).

(** [await p] for a promise whose outcome is [r]. *)
Definition await {A} (r : Result A) : M A := (r, []).

(** [try { m } catch (e) { h e }] *)
Definition try_catch {A} (m : M A) (h : Thrown -> M A) : M A :=
  match m with
  | (Throw e, t) => let (r, t') := h e in (r, (t ++ t')%list)
  | (Ok a, t) => (Ok a, t)
  end.

Declare Scope js_scope.
Delimit Scope js_scope with js.
Notation "x <- m ;; k" := (bind m (fun x => k))
  (at level 61, m at next level, right associativity) : js_scope.
Notation "m ;;; k" := (bind m (fun _ => k))
  (at level 61, right associativity) : js_scope.
Local Open Scope js_scope.

Definition result_of {A} (m : M A) : Result A := fst m.
Definition trace_of {A} (m : M A) : list Event := snd m.

(** [Promise.all] over tasks that were all started: every task's requests
    are issued; the promise rejects with the rejection that settles first
    ([fst] is the settling time, earlier list position on equal times) and
    otherwise fulfils with all the values, in list order. *)
Fixpoint first_rejection {B} (rs : list (nat * Result B)) : option (nat * Thrown) :=
  match rs with
  | [] => None
  | (t, r) :: rest =>
      match r, first_rejection rest with
      | Throw e, Some (t', e') => if (t <=? t')%nat then Some (t, e) else Some (t', e')
      | Throw e, None => Some (t, e)
      | Ok _, x => x
      end
  end.

Fixpoint fulfilled {B} (rs : list (nat * Result B)) : list B :=
  match rs with
  | [] => []
  | (_, Ok b) :: rest => b :: fulfilled rest
  | (_, Throw _) :: rest => fulfilled rest
  end.

Definition Promise_all {B} (tasks : list (nat * M B)) : M (list B) :=
  let settled := map (fun tm => (fst tm, result_of (snd tm))) tasks in
  let issued := List.concat (map (fun tm => trace_of (snd tm)) tasks) in
  match first_rejection settled with
  | Some (_, e) => (Throw e, issued)
  | None => (Ok (fulfilled settled), issued)
  end.

(** [Array.prototype.sort(cmp)]: a stable sort; [x] goes before [y] when
    [cmp x y < 0], and equal elements keep their order. *)
Section Sort.
Context {A : Type} (cmp : A -> A -> Z).

Fixpoint insert (x : A) (l : list A) : list A :=
  match l with
  | [] => [x]
  | y :: l' => if cmp x y <=? 0 then x :: y :: l' else y :: insert x l'
  end.

Fixpoint sort (l : list A) : list A :=
  match l with
  | [] => []
  | x :: l' => insert x (sort l')
  end.
End Sort.

(** ** The host and the remote services *)

Record Env : Type := mkEnv {
  (** [import.meta.env.VITE_WORKER_URL || 'https://...workers.dev'] *)
  workerUrl : string;
  (** [from('documents').select('*').eq('id', id).maybeSingle()] *)
  select_document : string -> Result (option DbRow.t);
  (** [from('documents').select('*').eq('product_type', p).order(...)];
      [None] is a null [data] *)
  select_by_product_type : option string -> Result (option (list DbRow.t));
  (** [fetch(url)] followed by [response.blob()] *)
  http_get : string -> Result (Result Blob.t);
  (** whether the [FileReader] reports an error on this blob *)
  reader_error : Blob.t -> bool;
  (** when the retrieval of a document settles *)
  settle_time : string -> nat;
  (** [fetch(url, {method: 'POST', body: JSON.stringify(payload)})] *)
  worker_post : string -> Payload.t -> Result Response.t;
  (** message of the [TypeError] raised on reading a consumed body *)
  body_used_message : string;
  (** [JSON.stringify] *)
  JSON_stringify : Json -> string;
  (** [supabase.auth.getUser()]: the user, [None] on error or no session *)
  auth_user : option string;
  (** [`${Date.now()}-${Math.random().toString(36).substr(2, 9)}`] *)
  timestamp_random : string;
  (** storage [upload]: the stored path or the error's message *)
  storage_upload : string -> File.t -> string + string;
  (** storage [getPublicUrl] *)
  public_url : string -> string;
  (** [insert(...).select().single()]: the row or the error's message *)
  db_insert : InsertRow.t -> DbRow.t + string;
  (** [URL.createObjectURL(new Blob([bytes], {type}))] *)
  createObjectURL : list byte -> string -> Result string
}.

(* ================================================================= *)
(** ** [src/services/documentService.ts] *)

Module DocumentService.

Definition BUCKET_NAME : string := "documents".

Inductive DocumentType : Type :=
| TDS | ESR | MSDS | LEED | Installation | warranty | Acoustic | PartSpec.

Definition DocumentType_string (t : DocumentType) : string :=
  match t with
  | TDS => "TDS"
  | ESR => "ESR"
  | MSDS => "MSDS"
  | LEED => "LEED"
  | Installation => "Installation"
  | warranty => "warranty"
  | Acoustic => "Acoustic"
  | PartSpec => "PartSpec"
  end.

Definition mapDatabaseToDocument (dbDoc : DbRow.t) : Document.t :=
  {| Document.id := DbRow.id dbDoc;
     Document.name := DbRow.name dbDoc;
     Document.description :=
       match DbRow.description dbDoc with Some d => or_string d EmptyString | None => EmptyString end;
     Document.filename := DbRow.filename dbDoc;
     Document.url := DbRow.file_url dbDoc;
     Document.size :=
       match DbRow.size dbDoc with Some n => n | None => 0 end;
     Document.type := DbRow.type dbDoc;
     Document.required :=
       match DbRow.required dbDoc with Some b => b | None => false end;
     Document.products := [];
     Document.productType := DbRow.product_type dbDoc |}.

Definition getDocumentsByProductType (env : Env) (productType : option string)
  : M (list Document.t) :=
  data <- request (DbSelectByProductType productType)
                  (select_by_product_type env productType) ;;
  ret (map mapDatabaseToDocument
           (match data with Some rows => rows | None => [] end)).

Definition getDocument (env : Env) (id : string) : M (option Document.t) :=
  data <- request (DbSelectDocument id) (select_document env id) ;;
  ret (match data with
       | Some row => Some (mapDatabaseToDocument row)
       | None => None
       end).

Module Validation.
Record t : Type := mk {
  valid : bool;
  error : option string
}.
End Validation.

Definition MAX_SIZE : Z := 50 * 1024 * 1024.

(** [String.fromCharCode(...bytes)] *)
Definition fromCharCode (bytes : list byte) : string :=
  string_of_list_byte bytes.

Definition validatePDF (file : File.t) : Validation.t :=
  if negb (String.eqb (File.type file) "application/pdf") then
    Validation.mk false (Some "File must be a PDF document")
  else if File.size file >? MAX_SIZE then
    Validation.mk false (Some "File size exceeds 50MB limit")
  else if File.size file <? 1024 then
    Validation.mk false (Some "File is too small to be a valid PDF")
  else
    match File.bytes file with
    | Ok content =>
        let bytes := firstn 5 content in
        let signature := fromCharCode bytes in
        if negb (startsWith signature "%PDF") then
          Validation.mk false (Some "File does not appear to be a valid PDF")
        else Validation.mk true None
    | Throw _ => Validation.mk false (Some "Failed to read file")
    end.

Definition detectDocumentType (filename : string) : DocumentType :=
  let lower := toLowerCase filename in
  if includes lower "tds" || includes lower "technical data" then TDS
  else if includes lower "esr" || includes lower "evaluation report" then ESR
  else if includes lower "msds" || includes lower "safety data" then MSDS
  else if includes lower "leed" then LEED
  else if includes lower "installation" || includes lower "install" then Installation
  else if includes lower "warranty" then warranty
  else if includes lower "acoustic" || includes lower "esl" then Acoustic
  else if includes lower "spec" || includes lower "3-part" then PartSpec
  else TDS.

Definition typeMap (type : DocumentType) : string :=
  match type with
  | TDS => "Technical Data Sheet"
  | ESR => "Evaluation Report"
  | MSDS => "Material Safety Data Sheet"
  | LEED => "LEED Credit Guide"
  | Installation => "Installation Guide"
  | warranty => "Limited Warranty"
  | Acoustic => "Acoustical Performance"
  | PartSpec => "3-Part Specifications"
  end.

(** [filename.replace(/\.pdf$/i, '')] *)
Definition strip_pdf (filename : string) : string :=
  if endsWith (toLowerCase filename) ".pdf"
  then String.substring 0 (String.length filename - 4) filename
  else filename.

Definition extractDocumentName (filename : string) (type : DocumentType) : string :=
  let name := strip_pdf filename in
  or_string (typeMap type) name.

Definition uploadDocument (env : Env) (file : File.t) (productType : string)
  : M Document.t :=
  let validation := validatePDF file in
  if negb (Validation.valid validation) then
    throw (ErrorObj (match Validation.error validation with
                     | Some m => or_string m "Invalid PDF file"
                     | None => "Invalid PDF file"
                     end))
  else
    try_catch
      (user <- request AuthGetUser (Ok (auth_user env)) ;;
       match user with
       | None => throw (ErrorObj "You must be logged in to upload documents")
       | Some _ =>
           let fileExt := pop (split "."%char (File.name file)) in
           let fileName :=
             productType ++ "/" ++ timestamp_random env ++ "." ++ fileExt in
           uploaded <- request (StorageUpload fileName file)
                               (Ok (storage_upload env fileName file)) ;;
           match uploaded with
           | inr uploadError =>
               throw (ErrorObj ("Failed to upload file: " ++ uploadError))
           | inl path =>
               let publicUrl := public_url env path in
               let type := detectDocumentType (File.name file) in
               let name := extractDocumentName (File.name file) type in
               let row :=
                 {| InsertRow.name := name;
                    InsertRow.description := DocumentType_string type ++ " Document";
                    InsertRow.filename := File.name file;
                    InsertRow.file_url := publicUrl;
                    InsertRow.size := File.size file;
                    InsertRow.type := productType;
                    InsertRow.product_type := productType;
                    InsertRow.required := false |} in
               inserted <- request (DbInsert row) (Ok (db_insert env row)) ;;
               match inserted with
               | inr insertError =>
                   request (StorageRemove path) (Ok tt) ;;;
                   throw (ErrorObj ("Failed to save document metadata: "
                                    ++ insertError))
               | inl docData => ret (mapDatabaseToDocument docData)
               end
           end
       end)
      (fun error =>
         throw (if instanceofError error then error
                else ErrorObj "Failed to upload document")).

(** [reader.readAsDataURL(blob)]: the data URL the reader produces. *)
Definition readAsDataURL (blob : Blob.t) : string :=
  "data:" ++ Blob.type blob ++ ";base64," ++ Base64.encode (Blob.bytes blob).

(** The promise built around the [FileReader]: rejected by [onerror],
    resolved by [onloadend] with [base64.split(',')[1]]. *)
Definition read_promise (env : Env) (blob : Blob.t) : Result StringOrNull :=
  if reader_error env blob then Throw (NonError "ProgressEvent")
  else
    let base64 := readAsDataURL blob in
    let base64Data := index (split ","%char base64) 1 in
    Ok base64Data.

(** The promise is returned from inside the [try] without being awaited
    there: the handler covers [fetch] and [blob()], not the reader. *)
Definition exportDocumentAsBase64 (env : Env) (id : string) : M StringOrNull :=
  doc <- getDocument env id ;;
  match doc with
  | None => ret Null
  | Some d =>
      if emptyb (Document.url d) then ret Null
      else
        returned <-
          try_catch
            (response <- request (HttpGet (Document.url d))
                                 (http_get env (Document.url d)) ;;
             blob <- await response ;;
             ret (read_promise env blob))
            (fun error => ret (Ok Null)) ;;
        await returned
  end.

End DocumentService.

(* ================================================================= *)
(** ** [src/services/pdfService.ts] *)

Module PDFService.
Import DocumentService.

(** The comparator of the sort, [(a, b) => a.order - b.order]. *)
Definition by_order (a b : SelectedDocument.t) : Z :=
  SelectedDocument.order a - SelectedDocument.order b.

Definition sortedDocs (selectedDocuments : list SelectedDocument.t)
  : list SelectedDocument.t :=
  sort by_order (filter SelectedDocument.selected selectedDocuments).

(** [fileData || undefined] *)
Definition fileData_or_undefined (fileData : StringOrNull) : option string :=
  match fileData with
  | Str s => if emptyb s then None else Some s
  | Null | Undefined => None
  end.

(** The body of the callback given to [sortedDocs.map]. *)
Definition documentWithData (env : Env) (doc : SelectedDocument.t)
  : M DocumentEntry.t :=
  let document := SelectedDocument.document doc in
  try_catch
    (fileData <- exportDocumentAsBase64 env (Document.id document) ;;
     ret {| DocumentEntry.id := SelectedDocument.id doc;
            DocumentEntry.name := Document.name document;
            DocumentEntry.url := or_string (Document.url document) EmptyString;
            DocumentEntry.type := Document.type document;
            DocumentEntry.fileData := fileData_or_undefined fileData |})
    (fun error =>
       throw (ErrorObj ("Failed to process document: " ++ Document.name document))).

Definition default_status : StatusFlags.t :=
  {| StatusFlags.forReview := false;
     StatusFlags.forApproval := false;
     StatusFlags.forRecord := false;
     StatusFlags.forInformationOnly := false |}.

Definition default_submittalType : SubmittalFlags.t :=
  {| SubmittalFlags.tds := false;
     SubmittalFlags.threePartSpecs := false;
     SubmittalFlags.testReportIccEsr5194 := false;
     SubmittalFlags.testReportIccEsl1645 := false;
     SubmittalFlags.fireAssembly := false;
     SubmittalFlags.fireAssembly01 := false;
     SubmittalFlags.fireAssembly02 := false;
     SubmittalFlags.fireAssembly03 := false;
     SubmittalFlags.msds := false;
     SubmittalFlags.leedGuide := false;
     SubmittalFlags.installationGuide := false;
     SubmittalFlags.warranty := false;
     SubmittalFlags.samples := false;
     SubmittalFlags.other := false |}.

(** The request payload. *)
Definition payload_of (formData : ProjectFormData.t)
    (documentsWithData : list DocumentEntry.t)
    (selectedDocumentNames : list string)
    (allCategoryDocs : list Document.t) : Payload.t :=
  {| Payload.projectData :=
       {| ProjectData.productType := ProjectFormData.productType formData;
          ProjectData.otherFields := ProjectFormData.otherFields formData;
          ProjectData.status :=
            match ProjectFormData.status formData with
            | Some s => s
            | None => default_status
            end;
          ProjectData.submittalType :=
            match ProjectFormData.submittalType formData with
            | Some s => s
            | None => default_submittalType
            end |};
     Payload.documents := documentsWithData;
     Payload.selectedDocumentNames := selectedDocumentNames;
     Payload.allAvailableDocuments := map Document.name allCategoryDocs |}.

(** Reading the body of a response ([json()], [text()], [arrayBuffer()]):
    the body is a stream, the first read consumes it, and a read of a
    consumed body rejects with a [TypeError] (Fetch standard, "consume
    body" on an unusable body).  The flag is [bodyUsed]. *)
Definition Response_json (env : Env) (response : Response.t) (bodyUsed : bool)
  : Result Json * bool :=
  if bodyUsed then (Throw (TypeErrorObj (body_used_message env)), true)
  else
    (match Response.body_json response with
     | Some value => Ok value
     | None => Throw (SyntaxErrorObj "Unexpected token in JSON")
     end, true).

Definition Response_text (env : Env) (response : Response.t) (bodyUsed : bool)
  : Result string * bool :=
  if bodyUsed then (Throw (TypeErrorObj (body_used_message env)), true)
  else (Ok (Response.body_text response), true).

Definition Response_arrayBuffer (env : Env) (response : Response.t) (bodyUsed : bool)
  : Result (list byte) * bool :=
  if bodyUsed then (Throw (TypeErrorObj (body_used_message env)), true)
  else (Ok (Response.body_bytes response), true).

(** [value.message]: [Ok None] is [undefined]; reading a property of
    [null] throws. *)
Definition get_message (value : Json) : Result (option Json) :=
  match value with
  | JNull => Throw (TypeErrorObj "Cannot read properties of null")
  | JObject properties =>
      Ok (match find (fun kv => String.eqb (fst kv) "message") properties with
          | Some kv => Some (snd kv)
          | None => None
          end)
  | _ => Ok None
  end.

Definition truthy (value : option Json) : bool :=
  match value with
  | None | Some JNull => false
  | Some (JBool b) => b
  | Some (JNumber z) => negb (z =? 0)
  | Some (JString s) => negb (emptyb s)
  | Some (JArray _) | Some (JObject _) => true
  end.

(** How a value is written inside a template literal. *)
Fixpoint to_String (value : Json) : string :=
  match value with
  | JNull => "null"
  | JBool true => "true"
  | JBool false => "false"
  | JNumber z => of_int z
  | JString s => s
  | JArray elements =>
      (fix join (l : list Json) : string :=
         match l with
         | [] => EmptyString
         | x :: rest =>
             let item := match x with JNull => EmptyString | _ => to_String x end in
             match rest with
             | [] => item
             | _ :: _ => item ++ "," ++ join rest
             end
         end) elements
  | JObject _ => "[object Object]"
  end.

(** [errorData.message || JSON.stringify(errorData)], inside [${...}] *)
Definition message_or_stringify (env : Env) (errorData : Json) : Result string :=
  match get_message errorData with
  | Throw e => Throw e
  | Ok m =>
      Ok (if truthy m
          then match m with Some v => to_String v | None => EmptyString end
          else JSON_stringify env errorData)
  end.

(** The branch [if (!response.ok)]. *)
Definition failed_response (env : Env) (response : Response.t) : M (list byte) :=
  let errorMessage :=
    "Worker request failed: " ++ of_int (Response.status response)
      ++ " " ++ Response.statusText response in
  let (parsed, bodyUsed) := Response_json env response false in
  errorMessage' <-
    try_catch
      (errorData <- await parsed ;;
       detail <- await (message_or_stringify env errorData) ;;
       ret (errorMessage ++ " - " ++ detail))
      (fun e =>
         text <- await (fst (Response_text env response bodyUsed)) ;;
         ret (errorMessage ++ " - " ++ text)) ;;
  throw (ErrorObj errorMessage').

(** The handler of the outer [try]. *)
Definition rethrown (env : Env) (error : Thrown) : Thrown :=
  if instanceofTypeError error && includes (message error) "fetch" then
    ErrorObj ("Cannot connect to PDF Worker at " ++ workerUrl env ++ ". "
              ++ "Please check your internet connection and make sure the worker is running.")
  else if instanceofError error then error
  else ErrorObj "Failed to generate PDF packet".

(** [Promise.all(sortedDocs.map(async (doc) => ...))] *)
Definition documentsWithData_promise (env : Env)
    (sortedDocs : list SelectedDocument.t) : M (list DocumentEntry.t) :=
  Promise_all
    (map (fun doc =>
            (settle_time env (Document.id (SelectedDocument.document doc)),
             documentWithData env doc))
         sortedDocs).

(** The statements from [fetch] to the end of the [try] block. *)
Definition post_payload (env : Env) (payload : Payload.t) : M (list byte) :=
  let url := workerUrl env ++ "/generate-packet" in
  response <- request (WorkerPost url payload) (worker_post env url payload) ;;
  if negb (Response.ok response) then failed_response env response
  else
    pdfBuffer <- await (fst (Response_arrayBuffer env response false)) ;;
    if (List.length pdfBuffer =? 0)%nat then
      throw (ErrorObj "Received empty PDF from worker")
    else ret pdfBuffer.

Definition generatePacket (env : Env) (formData : ProjectFormData.t)
    (selectedDocuments : list SelectedDocument.t) : M (list byte) :=
  try_catch
    (let sortedDocs := sortedDocs selectedDocuments in
     if (List.length sortedDocs =? 0)%nat then
       throw (ErrorObj "No documents selected for packet generation")
     else
       documentsWithData <- documentsWithData_promise env sortedDocs ;;
       let selectedDocumentNames :=
         map (fun doc => Document.name (SelectedDocument.document doc))
             sortedDocs in
       let productType := ProjectFormData.productType formData in
       allCategoryDocs <- getDocumentsByProductType env productType ;;
       let payload :=
         payload_of formData documentsWithData selectedDocumentNames
                    allCategoryDocs in
       post_payload env payload)
    (fun error => throw (rethrown env error)).

(** The file name [downloadPDF] saves under. *)
Definition download_name (filename : string) : string :=
  if negb (endsWith filename ".pdf") then filename ++ ".pdf" else filename.

Definition downloadPDF (env : Env) (pdfBytes : list byte) (filename : string)
  : M unit :=
  try_catch
    (let filename := download_name filename in
     url <- request (CreateObjectURL pdfBytes "application/pdf")
                    (createObjectURL env pdfBytes "application/pdf") ;;
     request (AnchorClick url filename) (Ok tt) ;;;
     request (RevokeObjectURL url) (Ok tt))
    (fun error => throw (ErrorObj "Failed to download PDF. Please try again.")).

End PDFService.

(* ================================================================= *)
(** ** Vocabulary of the specification *)

Module Spec.
Import DocumentService PDFService.

(** The errors of the specification, as the code raises them. *)
Definition EmptySelectionError : Thrown :=
  ErrorObj "No documents selected for packet generation".

Definition DocumentProcessingError (name : string) : Thrown :=
  ErrorObj ("Failed to process document: " ++ name).

Definition RenderError (status : Z) (statusText detail : string) : Thrown :=
  ErrorObj ("Worker request failed: " ++ of_int status ++ " " ++ statusText
            ++ " - " ++ detail).

Definition EmptyArtifactError : Thrown :=
  ErrorObj "Received empty PDF from worker".

Definition is_worker_post (ev : Event) : bool :=
  match ev with
  | WorkerPost _ _ => true
  | _ => false
  end.

(** The requests of a document retrieval. *)
Definition is_retrieval (ev : Event) : bool :=
  match ev with
  | DbSelectDocument _ | HttpGet _ => true
  | _ => false
  end.

Definition is_upload_or_insert (ev : Event) : bool :=
  match ev with
  | StorageUpload _ _ | DbInsert _ => true
  | _ => false
  end.

(** The retrieval of the content of [doc] throws. *)
Definition retrieval_throws (env : Env) (doc : SelectedDocument.t) : Prop :=
  exists e,
    result_of (exportDocumentAsBase64 env
                 (Document.id (SelectedDocument.document doc))) = Throw e.

(** There is nothing to encode: no record, or a record without a URL. *)
Definition nothing_to_encode (env : Env) (id : string) : Prop :=
  select_document env id = Ok None \/
  exists row, select_document env id = Ok (Some row) /\ DbRow.file_url row = EmptyString.

(** The record has a URL and fetching its content throws, at [fetch] or at
    [blob()]. *)
Definition content_fetch_fails (env : Env) (id : string) : Prop :=
  exists row,
    select_document env id = Ok (Some row) /\ DbRow.file_url row <> EmptyString /\
    ((exists e, http_get env (DbRow.file_url row) = Throw e) \/
     (exists e, http_get env (DbRow.file_url row) = Ok (Throw e))).

(** The record cannot be read. *)
Definition lookup_fails (env : Env) (id : string) : Prop :=
  exists e, select_document env id = Throw e.

(** The content was fetched and the reader reports an error. *)
Definition reader_fails (env : Env) (id : string) : Prop :=
  exists row blob,
    select_document env id = Ok (Some row) /\ DbRow.file_url row <> EmptyString /\
    http_get env (DbRow.file_url row) = Ok (Ok blob) /\
    reader_error env blob = true.

Definition orders (l : list SelectedDocument.t) : list Z :=
  map SelectedDocument.order l.

Definition strictly_ascending (l : list Z) : Prop := StronglySorted Z.lt l.

Definition ascending (l : list Z) : Prop := StronglySorted Z.le l.

Definition has_order (k : Z) (doc : SelectedDocument.t) : bool :=
  SelectedDocument.order doc =? k.

(** Every flag of the group is [false]. *)
Definition status_all_false (s : StatusFlags.t) : Prop :=
  StatusFlags.forReview s = false /\ StatusFlags.forApproval s = false /\
  StatusFlags.forRecord s = false /\ StatusFlags.forInformationOnly s = false.

Definition submittalType_all_false (s : SubmittalFlags.t) : Prop :=
  SubmittalFlags.tds s = false /\ SubmittalFlags.threePartSpecs s = false /\
  SubmittalFlags.testReportIccEsr5194 s = false /\
  SubmittalFlags.testReportIccEsl1645 s = false /\
  SubmittalFlags.fireAssembly s = false /\ SubmittalFlags.fireAssembly01 s = false /\
  SubmittalFlags.fireAssembly02 s = false /\ SubmittalFlags.fireAssembly03 s = false /\
  SubmittalFlags.msds s = false /\ SubmittalFlags.leedGuide s = false /\
  SubmittalFlags.installationGuide s = false /\ SubmittalFlags.warranty s = false /\
  SubmittalFlags.samples s = false /\ SubmittalFlags.other s = false.

(** The conditions under which [validatePDF] rejects a file. *)
Definition wrong_type (file : File.t) : Prop :=
  File.type file <> "application/pdf".

Definition too_large (file : File.t) : Prop := File.size file > 52428800.

Definition too_small (file : File.t) : Prop := File.size file < 1024.

Definition wrong_signature (file : File.t) : Prop :=
  exists content,
    File.bytes file = Ok content /\
    startsWith (fromCharCode (firstn 5 content)) "%PDF" = false.

End Spec.

(* ================================================================= *)
(** ** A sample host, for concrete runs *)

Module Sample.

Definition row (id url : string) : DbRow.t :=
  {| DbRow.id := id;
     DbRow.name := "Document " ++ id;
     DbRow.description := None;
     DbRow.filename := id ++ ".pdf";
     DbRow.file_url := url;
     DbRow.size := Some 2048;
     DbRow.type := "underlayment";
     DbRow.product_type := "underlayment";
     DbRow.required := None |}.

Definition pdf_bytes : list byte := [x25; x50; x44; x46; x2d; x31; x2e; x34].

Definition pdf_blob : Blob.t :=
  {| Blob.type := "application/pdf"; Blob.bytes := pdf_bytes |}.

(** The store holds [a], [b] and [c] with content, [nourl] without a URL,
    [offline] whose content cannot be fetched and [broken] whose record
    cannot be read; the worker answers [answer]. *)
Definition env (answer : Result Response.t) : Env :=
  {| workerUrl := "https://worker.example";
     select_document := fun id =>
       if String.eqb id "missing" then Ok None
       else if String.eqb id "broken" then Throw (NonError "PostgrestError")
       else if String.eqb id "nourl" then Ok (Some (row id EmptyString))
       else Ok (Some (row id ("https://store.example/" ++ id)));
     select_by_product_type := fun _ =>
       Ok (Some [row "a" "https://store.example/a";
                 row "b" "https://store.example/b";
                 row "c" "https://store.example/c"]);
     http_get := fun url =>
       if String.eqb url "https://store.example/offline"
       then Throw (TypeErrorObj "Failed to fetch")
       else Ok (Ok pdf_blob);
     reader_error := fun _ => false;
     settle_time := fun _ => 0%nat;
     worker_post := fun _ _ => answer;
     body_used_message :=
       "Failed to execute 'text' on 'Response': body stream already read";
     JSON_stringify := fun _ => "{}";
     auth_user := Some "admin";
     timestamp_random := "1700000000000-abcdefghi";
     storage_upload := fun path _ => inl path;
     public_url := fun path =>
       "https://store.example/storage/v1/object/public/documents/" ++ path;
     db_insert := fun r =>
       inl (row "new" (InsertRow.file_url r));
     createObjectURL := fun _ _ => Ok "blob:1" |}.

Definition document (id : string) : Document.t :=
  DocumentService.mapDatabaseToDocument (row id ("https://store.example/" ++ id)).

Definition pick (id : string) (selected : bool) (order : Z) : SelectedDocument.t :=
  {| SelectedDocument.id := "sel-" ++ id;
     SelectedDocument.document := document id;
     SelectedDocument.selected := selected;
     SelectedDocument.order := order |}.

Definition formData : ProjectFormData.t :=
  {| ProjectFormData.productType := Some "underlayment";
     ProjectFormData.status := None;
     ProjectFormData.submittalType := None;
     ProjectFormData.otherFields := [("projectName", "Tower")] |}.

Definition entry (id : string) : DocumentEntry.t :=
  {| DocumentEntry.id := "sel-" ++ id;
     DocumentEntry.name := "Document " ++ id;
     DocumentEntry.url := "https://store.example/" ++ id;
     DocumentEntry.type := "underlayment";
     DocumentEntry.fileData := Some "JVBERi0xLjQ=" |}.

(** The payload sent for the selection of [a] alone. *)
Definition payload : Payload.t :=
  PDFService.payload_of formData [entry "a"] ["Document a"]
    [document "a"; document "b"; document "c"].

Definition pdf_response : Response.t :=
  {| Response.status := 200;
     Response.statusText := "OK";
     Response.body_bytes := pdf_bytes;
     Response.body_text := "%PDF-1.4";
     Response.body_json := None |}.

Definition empty_response : Response.t :=
  {| Response.status := 200;
     Response.statusText := "OK";
     Response.body_bytes := [];
     Response.body_text := EmptyString;
     Response.body_json := None |}.

(** The double quote, as a string. *)
Definition dq : string := String "034"%char EmptyString.

(** HTTP 500 with the JSON body whose only property is [message], a
    string reading [boom]. *)
Definition boom_response : Response.t :=
  {| Response.status := 500;
     Response.statusText := "Internal Server Error";
     Response.body_bytes := [];
     Response.body_text :=
       "{" ++ dq ++ "message" ++ dq ++ ":" ++ dq ++ "boom" ++ dq ++ "}";
     Response.body_json := Some (JObject [("message", JString "boom")]) |}.

(** HTTP 500 with the plain-text body [upstream timeout]. *)
Definition text_response : Response.t :=
  {| Response.status := 500;
     Response.statusText := "Internal Server Error";
     Response.body_bytes := [x75; x70];
     Response.body_text := "upstream timeout";
     Response.body_json := None |}.

Definition pdf_file : File.t :=
  {| File.name := "TDS sheet.pdf";
     File.type := "application/pdf";
     File.size := 2048;
     File.bytes := Ok (pdf_bytes ++ repeat x00 2040)%list |}.

Definition text_file : File.t :=
  {| File.name := "notes.txt";
     File.type := "text/plain";
     File.size := 2048;
     File.bytes := Ok (repeat x41 2048) |}.

End Sample.

(* ================================================================= *)
(** ** Further vocabulary: what a run of [generatePacket] requested *)

Module Observed.
Import DocumentService PDFService.

(** The ids looked up in the [documents] table, in order. *)
Fixpoint lookups (t : list Event) : list string :=
  match t with
  | [] => []
  | DbSelectDocument id :: t' => id :: lookups t'
  | _ :: t' => lookups t'
  end.

(** The payloads posted to the worker, in order. *)
Fixpoint posts (t : list Event) : list Payload.t :=
  match t with
  | [] => []
  | WorkerPost _ p :: t' => p :: posts t'
  | _ :: t' => posts t'
  end.

(** The message of the connection error of the outer handler. *)
Definition unreachable_message (env : Env) : string :=
  "Cannot connect to PDF Worker at " ++ workerUrl env ++ ". "
  ++ "Please check your internet connection and make sure the worker is running.".

(** The first four bytes of a PDF file, [%PDF]. *)
Definition pdf_signature : list byte := [x25; x50; x44; x46].

(** The storage path [uploadDocument] asks for. *)
Definition upload_path (env : Env) (file : File.t) (productType : string) : string :=
  productType ++ "/" ++ timestamp_random env ++ "."
  ++ pop (split "."%char (File.name file)).

(** The row [uploadDocument] inserts once the file is stored at [path]. *)
Definition upload_row (env : Env) (file : File.t) (productType path : string)
  : InsertRow.t :=
  {| InsertRow.name := typeMap (detectDocumentType (File.name file));
     InsertRow.description :=
       DocumentType_string (detectDocumentType (File.name file)) ++ " Document";
     InsertRow.filename := File.name file;
     InsertRow.file_url := public_url env path;
     InsertRow.size := File.size file;
     InsertRow.type := productType;
     InsertRow.product_type := productType;
     InsertRow.required := false |}.

End Observed.

(* ================================================================= *)
(** ** Variations of the sample host *)

Module Scenario.

(** The sample host with the catalog fetch answering [catalog]. *)
Definition with_catalog (catalog : Result (option (list DbRow.t)))
    (answer : Result Response.t) : Env :=
  let env := Sample.env answer in
  {| workerUrl := workerUrl env;
     select_document := select_document env;
     select_by_product_type := fun _ => catalog;
     http_get := http_get env;
     reader_error := reader_error env;
     settle_time := settle_time env;
     worker_post := worker_post env;
     body_used_message := body_used_message env;
     JSON_stringify := JSON_stringify env;
     auth_user := auth_user env;
     timestamp_random := timestamp_random env;
     storage_upload := storage_upload env;
     public_url := public_url env;
     db_insert := db_insert env;
     createObjectURL := createObjectURL env |}.

(** The sample host where no record whose id is in [unreadable] can be
    read and the retrieval of [id] settles at [time id]. *)
Definition with_retrieval (unreadable : list string) (time : string -> nat)
    (answer : Result Response.t) : Env :=
  let env := Sample.env answer in
  {| workerUrl := workerUrl env;
     select_document := fun id =>
       if existsb (String.eqb id) unreadable
       then Throw (NonError "PostgrestError")
       else select_document env id;
     select_by_product_type := select_by_product_type env;
     http_get := http_get env;
     reader_error := reader_error env;
     settle_time := time;
     worker_post := worker_post env;
     body_used_message := body_used_message env;
     JSON_stringify := JSON_stringify env;
     auth_user := auth_user env;
     timestamp_random := timestamp_random env;
     storage_upload := storage_upload env;
     public_url := public_url env;
     db_insert := db_insert env;
     createObjectURL := createObjectURL env |}.

(** The sample host for uploads: the session, the answer of the storage
    and the answer of the insert. *)
Definition for_upload (user : option string) (stored : string -> string + string)
    (inserted : InsertRow.t -> DbRow.t + string) : Env :=
  let env := Sample.env (Ok Sample.pdf_response) in
  {| workerUrl := workerUrl env;
     select_document := select_document env;
     select_by_product_type := select_by_product_type env;
     http_get := http_get env;
     reader_error := reader_error env;
     settle_time := settle_time env;
     worker_post := worker_post env;
     body_used_message := body_used_message env;
     JSON_stringify := JSON_stringify env;
     auth_user := user;
     timestamp_random := timestamp_random env;
     storage_upload := fun path _ => stored path;
     public_url := public_url env;
     db_insert := inserted;
     createObjectURL := createObjectURL env |}.

End Scenario.

(* ================================================================= *)
(** ** [src/services/documentService.ts]: listing, updating, deleting *)

Module Maintenance.
Import DocumentService.

(** [s.split(sep)] for a separator string that is not empty.  [skip]
    counts the characters of a matched separator still to be passed. *)
Fixpoint split_at (sep : string) (skip : nat) (s : string) : list string :=
  match s with
  | EmptyString => [EmptyString]
  | String c s' =>
      match skip with
      | S k => split_at sep k s'
      | O =>
          if String.prefix sep s
          then EmptyString :: split_at sep (String.length sep - 1) s'
          else match split_at sep 0 s' with
               | [] => [String c EmptyString]
               | h :: t => String c h :: t
               end
      end
  end.

Definition split_string (sep s : string) : list string := split_at sep 0 s.

(** The part of a public URL before the path inside the bucket. *)
Definition bucket_marker : string := "/storage/v1/object/public/documents/".

(** The marker without its final slash. *)
Definition marker_stem : string := "/storage/v1/object/public/documents".

(** [Partial<Document>]: the fields of an update that the service reads. *)
Module Updates.
Record t : Type := mk {
  name : option string;
  description : option string;
  required : option bool;
  type : option string
}.
End Updates.

(** The object given to [update]. *)
Module UpdateData.
Record t : Type := mk {
  updated_at : string;
  name : option string;
  description : option string;
  required : option bool;
  type : option string
}.
End UpdateData.

(** The requests of these operations: those of the other services and
    three more on the [documents] table. *)
Inductive Request : Type :=
| Core (ev : Event)
| DbSelectAll
| DbUpdate (id : string) (data : UpdateData.t)
| DbDelete (id : string).

(** The answers of the store to them. *)
Record Store : Type := mkStore {
  (** [from('documents').select('*').order(...)]; [None] is a null [data] *)
  select_all : Result (option (list DbRow.t));
  (** storage [remove]: the message of the error, if any *)
  storage_remove : string -> option string;
  (** [delete().eq('id', id)]: the error, if any *)
  db_delete : string -> option Thrown;
  (** [update(data).eq('id', id)]: the error, if any *)
  db_update : string -> UpdateData.t -> option Thrown;
  (** [new Date().toISOString()] *)
  now : string
}.

(** The outcome of a call and the requests it issued, in order. *)
Definition Run (A : Type) : Type := (Result A * list Request)%type.

Definition done {A} (a : A) : Run A := (Ok a, []).

Definition fail {A} (e : Thrown) : Run A := (Throw e, []).

Definition and_then {A B} (m : Run A) (f : A -> Run B) : Run B :=
  match m with
  | (Ok a, t) => let (r, t') := f a in (r, (t ++ t')%list)
  | (Throw e, t) => (Throw e, t)
  end.

Definition ask {A} (req : Request) (r : Result A) : Run A := (r, [req]).

(** A call into the other services. *)
Definition core {A} (m : M A) : Run A := (fst m, map Core (snd m)).

Definition outcome {A} (m : Run A) : Result A := fst m.
Definition requests {A} (m : Run A) : list Request := snd m.

(** [if (updates.x)] on a string field: present and not empty. *)
Definition if_truthy (field : option string) : option string :=
  match field with
  | Some s => if emptyb s then None else Some s
  | None => None
  end.

Definition getAllDocuments (store : Store) : Run (list Document.t) :=
  and_then (ask DbSelectAll (select_all store)) (fun data =>
  done (map mapDatabaseToDocument
            (match data with Some rows => rows | None => [] end))).

Definition updateDocument (env : Env) (store : Store) (id : string)
    (updates : Updates.t) : Run unit :=
  and_then (core (getDocument env id)) (fun existing =>
  match existing with
  | None => fail (ErrorObj "Document not found")
  | Some _ =>
      let updateData :=
        {| UpdateData.updated_at := now store;
           UpdateData.name := if_truthy (Updates.name updates);
           UpdateData.description := if_truthy (Updates.description updates);
           UpdateData.required := Updates.required updates;
           UpdateData.type := if_truthy (Updates.type updates) |} in
      and_then (ask (DbUpdate id updateData) (Ok (db_update store id updateData)))
        (fun error =>
           match error with
           | Some e => fail e
           | None => done tt
           end)
  end).

Definition deleteDocument (env : Env) (store : Store) (id : string) : Run unit :=
  and_then (core (getDocument env id)) (fun existing =>
  match existing with
  | None => fail (ErrorObj "Document not found")
  | Some existing =>
      let fileUrl := Document.url existing in
      let filePath := index (split_string bucket_marker fileUrl) 1 in
      and_then
        (match filePath with
         | Str path =>
             if emptyb path then done tt
             else
               (* the error of the removal is logged, not thrown *)
               and_then (ask (Core (StorageRemove path))
                             (Ok (storage_remove store path)))
                        (fun deleteError => done tt)
         | Null | Undefined => done tt
         end)
        (fun _ =>
           and_then (ask (DbDelete id) (Ok (db_delete store id))) (fun error =>
           match error with
           | Some e => fail e
           | None => done tt
           end))
  end).

(** The loop of [getAllDocumentsWithData]: one retrieval after the other,
    keeping the documents whose [fileData] is truthy. *)
Fixpoint collect (env : Env) (documents : list Document.t)
    (results : list (Document.t * string)) : Run (list (Document.t * string)) :=
  match documents with
  | [] => done results
  | doc :: rest =>
      and_then (core (exportDocumentAsBase64 env (Document.id doc))) (fun fileData =>
      match fileData with
      | Str text =>
          if emptyb text then collect env rest results
          else collect env rest (results ++ [(doc, text)])%list
      | Null | Undefined => collect env rest results
      end)
  end.

Definition getAllDocumentsWithData (env : Env) (store : Store)
  : Run (list (Document.t * string)) :=
  and_then (getAllDocuments store) (fun documents =>
  collect env documents []).

(** What [getAllDocumentsWithData] keeps of one document. *)
Definition kept (env : Env) (doc : Document.t) : list (Document.t * string) :=
  match fst (exportDocumentAsBase64 env (Document.id doc)) with
  | Ok (Str text) => if emptyb text then [] else [(doc, text)]
  | _ => []
  end.

(** The removal [deleteDocument] asks of the storage for a file URL. *)
Definition removal_for (fileUrl : string) : list Request :=
  match index (split_string bucket_marker fileUrl) 1 with
  | Str path => if emptyb path then [] else [Core (StorageRemove path)]
  | Null | Undefined => []
  end.

(** A store for concrete runs: [all] is the table, [refused] the ids whose
    deletion or update the database refuses. *)
Definition sample_store (all : list DbRow.t) (refused : list string) : Store :=
  {| select_all := Ok (Some all);
     storage_remove := fun _ => Some "Object not found";
     db_delete := fun id =>
       if existsb (String.eqb id) refused
       then Some (NonError "PostgrestError") else None;
     db_update := fun id _ =>
       if existsb (String.eqb id) refused
       then Some (NonError "PostgrestError") else None;
     now := "2025-11-26T13:00:00.000Z" |}.

(** The sample host with one more record, [stored], whose URL is the
    public URL of [bucket/path]. *)
Definition host_with_stored (path : string) : Env :=
  let env := Sample.env (Ok Sample.pdf_response) in
  {| workerUrl := workerUrl env;
     select_document := fun id =>
       if String.eqb id "stored"
       then Ok (Some (Sample.row id (public_url env path)))
       else select_document env id;
     select_by_product_type := select_by_product_type env;
     http_get := http_get env;
     reader_error := reader_error env;
     settle_time := settle_time env;
     worker_post := worker_post env;
     body_used_message := body_used_message env;
     JSON_stringify := JSON_stringify env;
     auth_user := auth_user env;
     timestamp_random := timestamp_random env;
     storage_upload := storage_upload env;
     public_url := public_url env;
     db_insert := db_insert env;
     createObjectURL := createObjectURL env |}.

End Maintenance.

(* ================================================================= *)
(** ** Class [AuthService] (kept in this snapshot inside
       [src/lib/supabaseClient.ts]) *)

Module AuthService.

Definition LOCAL_SESSION_KEY : string := "admin_local_session_v1".

(** [localStorage] at [LOCAL_SESSION_KEY]: the text stored, if any. *)
Definition Storage : Type := option string.

(** The [{ data, error }] answer of a Supabase call. *)
Inductive Answer (A : Type) : Type :=
| Failed (error : Thrown)
| Data (data : A).
Arguments Failed {A} error.
Arguments Data {A} data.

Module User.
Record t : Type := mk { email : option string }.
End User.

Module Session.
Record t : Type := mk { user : option User.t }.
End Session.

Record Host : Type := mkHost {
  (** whether the operations of [localStorage] throw *)
  setItem_throws : bool;
  removeItem_throws : bool;
  getItem_throws : bool;
  (** [JSON.stringify({ email, ts: Date.now() })] *)
  session_text : string -> string;
  (** [JSON.parse], [None] when it throws *)
  JSON_parse : string -> option Json;
  (** [supabase.auth.signInWithPassword]: [data.user], if any *)
  sign_in : string -> string -> Result (Answer (option User.t));
  (** [supabase.auth.signOut] *)
  sign_out : Result unit;
  (** [supabase.auth.getSession]: [data.session], if any *)
  get_session : Result (option Session.t);
  (** the [password_hash] of the row of [admin_users] for an email *)
  admin_row : string -> Result (Answer (option string));
  (** [crypto.subtle.digest('SHA-256', data)] *)
  digest : list byte -> Result (list byte)
}.

Definition setLocalAdminSession (host : Host) (email : string)
    (storage : Storage) : Storage :=
  if setItem_throws host then storage else Some (session_text host email).

Definition clearLocalAdminSession (host : Host) (storage : Storage) : Storage :=
  if removeItem_throws host then storage else None.

(** [None] is [null]. *)
Definition getLocalAdminSession (host : Host) (storage : Storage) : option Json :=
  if getItem_throws host then None
  else
    match storage with
    | None => None
    | Some raw =>
        if emptyb raw then None
        else match JSON_parse host raw with
             | Some JNull | None => None
             | Some value => Some value
             end
    end.

Definition isAuthenticated (host : Host) (storage : Storage) : bool :=
  match getLocalAdminSession host storage with
  | Some _ => true
  | None => false
  end.

Definition signInAdmin (host : Host) (email password : string)
    (storage : Storage) : Result (option User.t) * Storage :=
  match sign_in host email password with
  | Throw e => (Throw e, storage)
  | Ok (Failed error) => (Throw error, storage)
  | Ok (Data data) =>
      (Ok data,
       match data with
       | Some _ => setLocalAdminSession host email storage
       | None => storage
       end)
  end.

Definition signOut (host : Host) (storage : Storage) : Result unit * Storage :=
  match sign_out host with
  | Throw e => (Throw e, storage)
  | Ok _ => (Ok tt, clearLocalAdminSession host storage)
  end.

(** [user.email ?? ''] *)
Definition email_or_empty (user : User.t) : string :=
  match User.email user with
  | Some email => email
  | None => EmptyString
  end.

Definition syncAuth (host : Host) (storage : Storage) : bool * Storage :=
  match get_session host with
  | Ok (Some {| Session.user := Some user |}) =>
      let email := email_or_empty user in
      (true,
       if emptyb email then storage else setLocalAdminSession host email storage)
  | Ok _ => (false, clearLocalAdminSession host storage)
  | Throw _ => (false, clearLocalAdminSession host storage)
  end.

(** The listener given to [supabase.auth.onAuthStateChange]: the value
    passed to [callback] and the storage afterwards. *)
Definition auth_state_listener (host : Host) (session : option Session.t)
    (storage : Storage) : bool * Storage :=
  match session with
  | Some {| Session.user := Some user |} =>
      let email := email_or_empty user in
      (true,
       if emptyb email then storage else setLocalAdminSession host email storage)
  | _ => (false, clearLocalAdminSession host storage)
  end.

Definition hex_digits : string := "0123456789abcdef".

Definition hex_digit (n : N) : ascii :=
  match String.get (N.to_nat n) hex_digits with
  | Some c => c
  | None => "0"%char
  end.

(** [b.toString(16).padStart(2, '0')] *)
Definition hex_byte (b : byte) : string :=
  let n := Byte.to_N b in
  String (hex_digit (n / 16)) (String (hex_digit (n mod 16)) EmptyString)%N.

(** [hashArray.map(...).join('')] *)
Fixpoint hex (bytes : list byte) : string :=
  match bytes with
  | [] => EmptyString
  | b :: rest => hex_byte b ++ hex rest
  end.

(** [new TextEncoder().encode(password)]: the UTF-8 bytes of the password,
    the string being given by those bytes. *)
Definition encode (password : string) : list byte := list_byte_of_string password.

Definition hashPassword (host : Host) (password : string) : Result string :=
  match digest host (encode password) with
  | Ok hashBuffer => Ok (hex hashBuffer)
  | Throw e => Throw e
  end.

Definition authenticateAdmin (host : Host) (email password : string) : bool :=
  match admin_row host email with
  | Throw _ => false
  | Ok (Failed _) => false
  | Ok (Data None) => false
  | Ok (Data (Some password_hash)) =>
      match hashPassword host password with
      | Throw _ => false
      | Ok passwordHash => String.eqb passwordHash password_hash
      end
  end.

(** The value of a hexadecimal digit, to read a hash text back. *)
Definition hex_value (c : ascii) : option N :=
  let n := N_of_ascii c in
  if ((48 <=? n) && (n <=? 57))%N then Some (n - 48)%N
  else if ((97 <=? n) && (n <=? 102))%N then Some (n - 87)%N
  else None.

Fixpoint unhex (s : string) : option (list byte) :=
  match s with
  | EmptyString => Some []
  | String h (String l rest) =>
      match hex_value h, hex_value l, unhex rest with
      | Some x, Some y, Some bytes => Some (Base64.byte_of (x * 16 + y) :: bytes)
      | _, _, _ => None
      end
  | String _ EmptyString => None
  end.

(** A host for concrete runs: the storage works, the session text of an
    email is a JSON object, the session is the one given. *)
Definition sample_host (session : Result (option Session.t)) : Host :=
  {| setItem_throws := false;
     removeItem_throws := false;
     getItem_throws := false;
     session_text := fun email => "{email:" ++ email ++ "}";
     JSON_parse := fun raw =>
       if String.prefix "{" raw then Some (JObject [("email", JString raw)])
       else None;
     sign_in := fun email _ => Ok (Data (Some (User.mk (Some email))));
     sign_out := Ok tt;
     get_session := session;
     admin_row := fun email =>
       if String.eqb email "admin@example.com" then Ok (Data (Some "00ff10"))
       else Ok (Data None);
     digest := fun data =>
       match data with
       | [] => Throw (NonError "OperationError")
       | _ :: _ => Ok [x00; xff; x10]
       end |}.

End AuthService.

(* ================================================================= *)
(** * Properties *)

(** ** Strings *)

Module JsFacts.

Lemma substring_length_app (a b : string) :
  String.substring (String.length a) (String.length b) (a ++ b) = b.
Proof.
  induction a as [|c a IH]; simpl.
  - induction b as [|d b IHb]; simpl; [reflexivity|].
    now rewrite IHb.
  - exact IH.
Qed.

Lemma length_app (a b : string) :
  String.length (a ++ b) = (String.length a + String.length b)%nat.
Proof. induction a; simpl; [reflexivity | now rewrite IHa]. Qed.

Lemma append_assoc (a b c : string) : (a ++ b) ++ c = a ++ (b ++ c).
Proof. induction a; simpl; [reflexivity | now rewrite IHa]. Qed.

Lemma endsWith_app (a b : string) : endsWith (a ++ b) b = true.
Proof.
  unfold endsWith. rewrite length_app.
  replace (String.length b <=? String.length a + String.length b)%nat
    with true by (symmetry; apply Nat.leb_le; lia).
  replace (String.length a + String.length b - String.length b)%nat
    with (String.length a) by lia.
  rewrite substring_length_app. apply String.eqb_refl.
Qed.

Lemma prefix_app (p s : string) : String.prefix p (p ++ s) = true.
Proof.
  induction p as [|c p IH]; simpl.
  - now destruct s.
  - destruct (ascii_dec c c) as [_|n]; [exact IH | now elim n].
Qed.

Lemma includes_app_l (a b p : string) :
  includes b p = true -> includes (a ++ b) p = true.
Proof.
  intros H. induction a as [|c a IH]; simpl; [exact H|].
  rewrite IH. apply orb_true_r.
Qed.

Lemma includes_prefix (s p : string) :
  String.prefix p s = true -> includes s p = true.
Proof. intros H. destruct s; simpl in *; rewrite H; reflexivity. Qed.

(** [a ++ p ++ b] includes [p]. *)
Lemma includes_middle (a p b : string) : includes (a ++ p ++ b) p = true.
Proof. apply includes_app_l, includes_prefix, prefix_app. Qed.

Lemma prefix_refl (p : string) : String.prefix p p = true.
Proof.
  induction p as [|c p IH]; simpl; [reflexivity|].
  destruct (ascii_dec c c) as [_|n]; [exact IH | now elim n].
Qed.

(** [a ++ p] includes [p]. *)
Lemma includes_app_r (a p : string) : includes (a ++ p) p = true.
Proof. apply includes_app_l, includes_prefix, prefix_refl. Qed.




End JsFacts.

(** ** Base64 *)

Module Base64Facts.
Import Base64.






Lemma byte_of_to_N (b : byte) : byte_of (Byte.to_N b) = b.
Proof. unfold byte_of. now rewrite Byte.of_to_N. Qed.

Lemma to_N_lt (b : byte) : (Byte.to_N b < 256)%N.
Proof. pose proof (Byte.to_N_bounded b). lia. Qed.

Ltac nlia := zify; Z.to_euclidean_division_equations; lia.

Lemma byte_of_eq (n : N) (b : byte) : n = Byte.to_N b -> byte_of n = b.
Proof. intros ->. apply byte_of_to_N. Qed.





End Base64Facts.

(** ** The stable sort *)

Section SortFacts.
Context {A : Type} (key : A -> Z).

Local Abbreviation cmp := (fun a b : A => key a - key b).
Local Abbreviation le := (fun a b : A => key a <= key b).
Local Abbreviation lt := (fun a b : A => key a < key b).

Lemma insert_perm (x : A) (l : list A) : Permutation (insert cmp x l) (x :: l).
Proof.
  induction l as [|y l IH]; simpl; [reflexivity|].
  destruct (cmp x y <=? 0); [reflexivity|].
  rewrite IH. apply perm_swap.
Qed.

Lemma sort_perm (l : list A) : Permutation (sort cmp l) l.
Proof.
  induction l as [|x l IH]; simpl; [reflexivity|].
  rewrite insert_perm. now constructor.
Qed.

Lemma insert_sorted (x : A) (l : list A) :
  StronglySorted le l -> StronglySorted le (insert cmp x l).
Proof.
  induction 1 as [|y l Hs IH Hy]; simpl.
  - repeat constructor.
  - destruct (cmp x y <=? 0) eqn:E.
    + apply Z.leb_le in E. constructor; [now constructor|].
      constructor; [cbv beta in *; lia|].
      eapply Forall_impl; [|exact Hy]. cbv beta in *. intros; lia.
    + apply Z.leb_gt in E. constructor; [exact IH|].
      eapply Permutation_Forall; [symmetry; apply insert_perm|].
      constructor; [cbv beta in *; lia | exact Hy].
Qed.

Lemma sort_sorted (l : list A) : StronglySorted le (sort cmp l).
Proof.
  induction l as [|x l IH]; simpl; [constructor | now apply insert_sorted].
Qed.

(** Elements with the same key keep their relative order. *)
Lemma insert_stable (k : Z) (x : A) (l : list A) :
  filter (fun a => key a =? k) (insert cmp x l)
  = filter (fun a => key a =? k) (x :: l).
Proof.
  induction l as [|y l IH]; [reflexivity|].
  cbn [insert]. destruct (cmp x y <=? 0) eqn:E; [reflexivity|].
  apply Z.leb_gt in E. cbv beta in E.
  cbn [filter] in *. rewrite IH.
  destruct (key x =? k) eqn:Ex; destruct (key y =? k) eqn:Ey; try reflexivity.
  apply Z.eqb_eq in Ex, Ey. lia.
Qed.

Lemma sort_stable (k : Z) (l : list A) :
  filter (fun a => key a =? k) (sort cmp l) = filter (fun a => key a =? k) l.
Proof.
  induction l as [|x l IH]; [reflexivity|].
  cbn [sort]. rewrite insert_stable. cbn [filter]. now rewrite IH.
Qed.

Lemma sorted_strict (l : list A) :
  StronglySorted le l -> NoDup (map key l) -> StronglySorted lt l.
Proof.
  induction 1 as [|x l Hs IH Hx]; intros Hn; [constructor|].
  inversion Hn as [|? ? Hnot Hn']; subst.
  constructor; [now apply IH|].
  rewrite Forall_forall in *. intros y Hy.
  specialize (Hx y Hy). cbv beta in *.
  assert (key x <> key y).
  { intros E. apply Hnot. rewrite E. now apply in_map. }
  lia.
Qed.

Lemma sort_strict (l : list A) :
  NoDup (map key l) -> StronglySorted lt (sort cmp l).
Proof.
  intros Hn. apply sorted_strict; [apply sort_sorted|].
  eapply Permutation_NoDup; [|exact Hn].
  apply Permutation_map. symmetry. apply sort_perm.
Qed.

End SortFacts.

(** ** The document service *)

Module DocumentServiceFacts.
Import DocumentService Spec.

Ltac run :=
  unfold result_of, trace_of, bind, request, await, try_catch, ret, throw;
  cbn [fst snd app].

(** What [exportDocumentAsBase64] answers, by cases on the store, the
    network and the reader. *)
Lemma export_result (env : Env) (id : string) :
  result_of (exportDocumentAsBase64 env id) =
  match select_document env id with
  | Throw e => Throw e
  | Ok None => Ok Null
  | Ok (Some row) =>
      if emptyb (DbRow.file_url row) then Ok Null
      else match http_get env (DbRow.file_url row) with
           | Throw _ | Ok (Throw _) => Ok Null
           | Ok (Ok blob) => read_promise env blob
           end
  end.
Proof.
  unfold exportDocumentAsBase64, getDocument. run.
  destruct (select_document env id) as [[row|]|e]; cbn; try reflexivity.
  destruct (emptyb (DbRow.file_url row)); cbn; [reflexivity|].
  destruct (http_get env (DbRow.file_url row)) as [[blob|e]|e]; cbn; try reflexivity.
Qed.

Lemma export_trace (env : Env) (id : string) :
  forallb is_retrieval (trace_of (exportDocumentAsBase64 env id)) = true.
Proof.
  unfold exportDocumentAsBase64, getDocument. run.
  destruct (select_document env id) as [[row|]|e]; cbn; try reflexivity.
  destruct (emptyb (DbRow.file_url row)); cbn; [reflexivity|].
  destruct (http_get env (DbRow.file_url row)) as [[blob|e]|e]; cbn; try reflexivity.
Qed.

Lemma read_promise_not_null (env : Env) (blob : Blob.t) :
  read_promise env blob <> Ok Null.
Proof.
  unfold read_promise, index.
  destruct (reader_error env blob); [discriminate|].
  destruct (nth_error _ 1); discriminate.
Qed.


End DocumentServiceFacts.

(** ** The document encoder *)

Module Encoder.
Import DocumentService Spec DocumentServiceFacts.

Lemma emptyb_true (s : string) : emptyb s = true <-> s = EmptyString.
Proof. destruct s; simpl; split; congruence. Qed.

Lemma emptyb_false (s : string) : emptyb s = false <-> s <> EmptyString.
Proof. destruct s; simpl; split; congruence. Qed.

(** C8, as the code has it: [exportDocumentAsBase64] answers [null] exactly
    when there is nothing to encode or when fetching the content of a
    document that has a URL throws (the handler turns that failure into
    [null]); it throws exactly when the record cannot be read or when the
    reader reports an error. *)
Theorem export_null_cases (env : Env) (id : string) :
  (result_of (exportDocumentAsBase64 env id) = Ok Null <->
   nothing_to_encode env id \/ content_fetch_fails env id) /\
  ((exists e, result_of (exportDocumentAsBase64 env id) = Throw e) <->
   lookup_fails env id \/ reader_fails env id).
Proof.
  rewrite export_result.
  unfold nothing_to_encode, content_fetch_fails, lookup_fails, reader_fails.
  destruct (select_document env id) as [[row|]|e0] eqn:Es.
  - destruct (emptyb (DbRow.file_url row)) eqn:Eu.
    + apply emptyb_true in Eu. split; split.
      * intros _. left. right. now exists row.
      * reflexivity.
      * intros [e He]. discriminate.
      * intros [[e He]|(r & b & Hr & Hu & _)]; [discriminate|].
        injection Hr as <-. contradiction.
    + apply emptyb_false in Eu.
      destruct (http_get env (DbRow.file_url row)) as [[blob|e1]|e1] eqn:Eh.
      * split; split.
        -- intros H. now apply read_promise_not_null in H.
        -- intros [[H|(r & Hr & Hu)]|(r & Hr & Hu & [[e He]|[e He]])];
             try discriminate; injection Hr as <-; congruence.
        -- intros [e He]. right. exists row, blob. repeat split; auto.
           unfold read_promise in He.
           destruct (reader_error env blob); [reflexivity | discriminate].
        -- intros [[e He]|(r & b & Hr & Hu & Hg & Hb)]; [discriminate|].
           injection Hr as <-. rewrite Eh in Hg. injection Hg as <-.
           unfold read_promise. rewrite Hb. eauto.
      * split; split.
        -- intros _. right. exists row. repeat split; eauto.
        -- reflexivity.
        -- intros [e He]. discriminate.
        -- intros [[e He]|(r & b & Hr & Hu & Hg & Hb)]; [discriminate|].
           injection Hr as <-. congruence.
      * split; split.
        -- intros _. right. exists row. repeat split; eauto.
        -- reflexivity.
        -- intros [e He]. discriminate.
        -- intros [[e He]|(r & b & Hr & Hu & Hg & Hb)]; [discriminate|].
           injection Hr as <-. congruence.
  - split; split.
    + intros _. now left; left.
    + reflexivity.
    + intros [e He]. discriminate.
    + intros [[e He]|(r & b & Hr & _)]; discriminate.
  - split; split.
    + discriminate.
    + intros [[H|(r & Hr & _)]|(r & Hr & _)]; discriminate.
    + intros _. left. eauto.
    + intros _. eauto.
Qed.

(** C8, as stated, fails: the record [offline] has a URL, fetching its
    content throws, and the encoder answers [null] instead of throwing,
    although there was something to encode. *)
Lemma export_fetch_failure_is_null :
  let env := Sample.env (Ok Sample.pdf_response) in
  let row := Sample.row "offline" "https://store.example/offline" in
  select_document env "offline" = Ok (Some row) /\
  DbRow.file_url row <> EmptyString /\
  http_get env (DbRow.file_url row) = Throw (TypeErrorObj "Failed to fetch") /\
  result_of (exportDocumentAsBase64 env "offline") = Ok Null /\
  (forall e, result_of (exportDocumentAsBase64 env "offline") <> Throw e) /\
  ~ (result_of (exportDocumentAsBase64 env "offline") = Ok Null <->
     nothing_to_encode env "offline").
Proof.
  cbv zeta. repeat split; try reflexivity; try discriminate.
  intros [H _]. specialize (H eq_refl).
  destruct H as [H|(row & Hr & Hu)]; [discriminate|].
  vm_compute in Hr. injection Hr as <-. discriminate.
Qed.



End Encoder.

(** ** [Promise.all] *)

Section PromiseFacts.
Context {B : Type}.

Lemma first_rejection_in (rs : list (nat * Result B)) (t : nat) (e : Thrown) :
  first_rejection rs = Some (t, e) -> In (t, Throw e) rs.
Proof.
  revert t e. induction rs as [|[t0 r0] rs IH]; intros t e; cbn; [discriminate|].
  destruct r0 as [b|e0].
  - intros H. right. now apply IH.
  - destruct (first_rejection rs) as [[t' e']|].
    + destruct (t0 <=? t')%nat; intros H; injection H as <- <-.
      * now left.
      * right. now apply IH.
    + intros H; injection H as <- <-. now left.
Qed.

Lemma first_rejection_some (rs : list (nat * Result B)) (t : nat) (e : Thrown) :
  In (t, Throw e) rs -> first_rejection rs <> None.
Proof.
  induction rs as [|[t0 r0] rs IH]; cbn; [tauto|].
  intros [H|H].
  - injection H as -> ->.
    destruct (first_rejection rs) as [[t' e']|]; [|discriminate].
    destruct (t <=? t')%nat; discriminate.
  - specialize (IH H). destruct r0; [exact IH|].
    destruct (first_rejection rs) as [[t' e']|]; [|contradiction].
    destruct (t0 <=? t')%nat; discriminate.
Qed.

Lemma Promise_all_result (tasks : list (nat * M B)) :
  result_of (Promise_all tasks) =
  let settled := map (fun tm => (fst tm, result_of (snd tm))) tasks in
  match first_rejection settled with
  | Some (_, e) => Throw e
  | None => Ok (fulfilled settled)
  end.
Proof.
  unfold Promise_all. cbv zeta.
  destruct (first_rejection _) as [[t e]|]; reflexivity.
Qed.

Lemma Promise_all_trace (tasks : list (nat * M B)) :
  trace_of (Promise_all tasks) =
  List.concat (map (fun tm => trace_of (snd tm)) tasks).
Proof.
  unfold Promise_all. cbv zeta.
  destruct (first_rejection _) as [[t e]|]; reflexivity.
Qed.

End PromiseFacts.

(** ** The packet service *)

Module PDFServiceFacts.
Import DocumentService PDFService Spec DocumentServiceFacts.

Abbreviation document_id doc := (Document.id (SelectedDocument.document doc)).
Abbreviation document_name doc := (Document.name (SelectedDocument.document doc)).

Lemma documentWithData_result (env : Env) (doc : SelectedDocument.t) :
  result_of (documentWithData env doc) =
  match result_of (exportDocumentAsBase64 env (document_id doc)) with
  | Ok fileData =>
      Ok {| DocumentEntry.id := SelectedDocument.id doc;
            DocumentEntry.name := document_name doc;
            DocumentEntry.url :=
              or_string (Document.url (SelectedDocument.document doc)) EmptyString;
            DocumentEntry.type := Document.type (SelectedDocument.document doc);
            DocumentEntry.fileData := fileData_or_undefined fileData |}
  | Throw _ => Throw (DocumentProcessingError (document_name doc))
  end.
Proof.
  unfold documentWithData.
  destruct (exportDocumentAsBase64 env (document_id doc)) as [[fileData|e] t];
    reflexivity.
Qed.

Lemma documentWithData_trace (env : Env) (doc : SelectedDocument.t) :
  trace_of (documentWithData env doc)
  = trace_of (exportDocumentAsBase64 env (document_id doc)).
Proof.
  unfold documentWithData.
  destruct (exportDocumentAsBase64 env (document_id doc)) as [[fileData|e] t];
    run; apply app_nil_r.
Qed.

Lemma documentWithData_throws (env : Env) (doc : SelectedDocument.t) (e : Thrown) :
  result_of (documentWithData env doc) = Throw e ->
  retrieval_throws env doc /\ e = DocumentProcessingError (document_name doc).
Proof.
  rewrite documentWithData_result. unfold retrieval_throws.
  destruct (result_of (exportDocumentAsBase64 env (document_id doc))) as [fd|e0];
    [discriminate|].
  intros H; injection H as <-. eauto.
Qed.

Lemma promise_trace (env : Env) (docs : list SelectedDocument.t) :
  forallb is_retrieval (trace_of (documentsWithData_promise env docs)) = true.
Proof.
  unfold documentsWithData_promise. rewrite Promise_all_trace.
  induction docs as [|d docs IH]; [reflexivity|].
  cbn [map List.concat snd]. rewrite forallb_app, IH, documentWithData_trace.
  now rewrite export_trace.
Qed.

(** One rejected retrieval rejects the whole: with the error that names a
    document whose retrieval throws. *)
Lemma promise_rejects (env : Env) (docs : list SelectedDocument.t)
    (d : SelectedDocument.t) :
  In d docs -> retrieval_throws env d ->
  exists d',
    In d' docs /\ retrieval_throws env d' /\
    result_of (documentsWithData_promise env docs)
      = Throw (DocumentProcessingError (document_name d')).
Proof.
  intros Hin [e He].
  unfold documentsWithData_promise. rewrite Promise_all_result. cbv zeta.
  rewrite map_map. cbn [fst snd].
  set (settled := map _ docs).
  assert (Hs : In (settle_time env (document_id d),
                   Throw (DocumentProcessingError (document_name d))) settled).
  { apply in_map_iff. exists d. split; [|exact Hin].
    rewrite documentWithData_result, He. reflexivity. }
  apply first_rejection_some in Hs.
  destruct (first_rejection settled) as [[t e']|] eqn:Ef; [|contradiction].
  apply first_rejection_in in Ef. apply in_map_iff in Ef.
  destruct Ef as (d' & Hd' & Hin').
  injection Hd' as _ Hd'. apply documentWithData_throws in Hd' as [Ht ->].
  exists d'. auto.
Qed.

(** When no retrieval throws, the entries are those of the documents, in
    their order. *)
Lemma promise_fulfilled (env : Env) (docs : list SelectedDocument.t)
    (entries : list DocumentEntry.t) :
  result_of (documentsWithData_promise env docs) = Ok entries ->
  map DocumentEntry.id entries = map SelectedDocument.id docs /\
  map DocumentEntry.name entries = map (fun d => document_name d) docs /\
  (forall d, In d docs -> ~ retrieval_throws env d).
Proof.
  unfold documentsWithData_promise. rewrite Promise_all_result. cbv zeta.
  rewrite map_map. cbn [fst snd].
  destruct (first_rejection _) as [[t e]|] eqn:Ef; [discriminate|].
  intros H; injection H as <-.
  assert (Hno : forall d, In d docs -> ~ retrieval_throws env d).
  { intros d Hin [e He].
    eapply first_rejection_some; [|exact Ef].
    apply in_map_iff. exists d. split; [|exact Hin].
    rewrite documentWithData_result, He. reflexivity. }
  split; [|split; [|exact Hno]]; clear Ef.
  - induction docs as [|d docs IH]; [reflexivity|].
    cbn [map fulfilled]. rewrite documentWithData_result.
    destruct (result_of (exportDocumentAsBase64 env (document_id d))) eqn:E.
    + cbn [fulfilled map DocumentEntry.id]. f_equal. apply IH.
      intros d' Hd'. apply Hno. now right.
    + exfalso. apply (Hno d); [now left|]. unfold retrieval_throws. eauto.
  - induction docs as [|d docs IH]; [reflexivity|].
    cbn [map fulfilled]. rewrite documentWithData_result.
    destruct (result_of (exportDocumentAsBase64 env (document_id d))) eqn:E.
    + cbn [fulfilled map DocumentEntry.name]. f_equal. apply IH.
      intros d' Hd'. apply Hno. now right.
    + exfalso. apply (Hno d); [now left|]. unfold retrieval_throws. eauto.
Qed.

Lemma promise_fulfils (env : Env) (docs : list SelectedDocument.t) :
  (forall d, In d docs -> ~ retrieval_throws env d) ->
  exists entries, result_of (documentsWithData_promise env docs) = Ok entries.
Proof.
  intros Hno.
  destruct (result_of (documentsWithData_promise env docs)) as [entries|e] eqn:E;
    [eauto|].
  exfalso. revert E.
  unfold documentsWithData_promise. rewrite Promise_all_result. cbv zeta.
  rewrite map_map. cbn [fst snd].
  destruct (first_rejection _) as [[t e']|] eqn:Ef; [|discriminate].
  intros _. apply first_rejection_in in Ef. apply in_map_iff in Ef.
  destruct Ef as (d & Hd & Hin). injection Hd as _ Hd.
  apply documentWithData_throws in Hd as [Ht _]. exact (Hno d Hin Ht).
Qed.

Lemma failed_response_trace (env : Env) (response : Response.t) :
  trace_of (failed_response env response) = [].
Proof.
  unfold failed_response, Response_json, Response_text. run.
  destruct (Response.body_json response) as [errorData|]; cbn; [|reflexivity].
  destruct (message_or_stringify env errorData); reflexivity.
Qed.

Lemma post_payload_trace (env : Env) (payload : Payload.t) :
  trace_of (post_payload env payload)
  = [WorkerPost (workerUrl env ++ "/generate-packet") payload].
Proof.
  unfold post_payload. cbv zeta. unfold bind at 1, request.
  destruct (worker_post env _ payload) as [response|e]; [|reflexivity].
  destruct (negb (Response.ok response)).
  - pose proof (failed_response_trace env response) as H.
    destruct (failed_response env response) as [r t]. cbn in *. now subst.
  - unfold Response_arrayBuffer. run.
    destruct (List.length (Response.body_bytes response) =? 0)%nat; reflexivity.
Qed.

(** The run of [generatePacket], step by step. *)
Lemma generatePacket_run (env : Env) (formData : ProjectFormData.t)
    (selectedDocuments : list SelectedDocument.t) :
  generatePacket env formData selectedDocuments =
  let sorted := sortedDocs selectedDocuments in
  let productType := ProjectFormData.productType formData in
  match sorted with
  | [] => (Throw EmptySelectionError, [])
  | _ :: _ =>
      match documentsWithData_promise env sorted with
      | (Throw e, t) => (Throw (rethrown env e), t)
      | (Ok entries, t) =>
          match select_by_product_type env productType with
          | Throw e =>
              (Throw (rethrown env e),
               (t ++ [DbSelectByProductType productType])%list)
          | Ok data =>
              let payload :=
                payload_of formData entries
                  (map (fun d => document_name d) sorted)
                  (map mapDatabaseToDocument
                     (match data with Some rows => rows | None => [] end)) in
              (match result_of (post_payload env payload) with
               | Ok bytes => Ok bytes
               | Throw e => Throw (rethrown env e)
               end,
               (t ++ [DbSelectByProductType productType;
                      WorkerPost (workerUrl env ++ "/generate-packet") payload])%list)
          end
      end
  end.
Proof.
  unfold generatePacket, getDocumentsByProductType. cbv zeta.
  destruct (sortedDocs selectedDocuments) as [|d0 rest]; [reflexivity|].
  cbn [List.length Nat.eqb]. run.
  destruct (documentsWithData_promise env (d0 :: rest)) as [[entries|e] t].
  - destruct (select_by_product_type env (ProjectFormData.productType formData))
      as [data|e].
    + set (payload := payload_of _ _ _ _).
      pose proof (post_payload_trace env payload) as Ht.
      destruct (post_payload env payload) as [[bytes|e] t'].
      all: unfold trace_of in Ht; cbn [snd] in Ht; subst t';
        cbn [fst app]; rewrite ?app_nil_r; reflexivity.
    + cbn. rewrite ?app_nil_r. reflexivity.
  - cbn. rewrite app_nil_r. reflexivity.
Qed.

End PDFServiceFacts.

(** ** The packet assembler *)

Module Assembler.
Import DocumentService PDFService Spec DocumentServiceFacts PDFServiceFacts.

Lemma In_sortedDocs (selection : list SelectedDocument.t) (d : SelectedDocument.t) :
  In d (sortedDocs selection) <->
  In d selection /\ SelectedDocument.selected d = true.
Proof.
  unfold sortedDocs. rewrite <- filter_In. split; apply Permutation_in.
  - apply (sort_perm SelectedDocument.order).
  - symmetry. apply (sort_perm SelectedDocument.order).
Qed.

Lemma sortedDocs_nil (selection : list SelectedDocument.t) :
  (forall d, In d selection -> SelectedDocument.selected d = false) ->
  sortedDocs selection = [].
Proof.
  intros H. destruct (sortedDocs selection) as [|d l] eqn:E; [reflexivity|].
  assert (Hd : In d (sortedDocs selection)) by (rewrite E; now left).
  apply In_sortedDocs in Hd as [Hin Hs]. rewrite (H d Hin) in Hs. discriminate.
Qed.

Lemma sortedDocs_not_nil (selection : list SelectedDocument.t) :
  (exists d, In d selection /\ SelectedDocument.selected d = true) ->
  sortedDocs selection <> [].
Proof.
  intros (d & Hd) E. apply In_sortedDocs in Hd. rewrite E in Hd. contradiction.
Qed.

Lemma rethrown_ErrorObj (env : Env) (m : string) :
  rethrown env (ErrorObj m) = ErrorObj m.
Proof. reflexivity. Qed.

Lemma retrieval_is_not_post (t : list Event) (url : string) (p : Payload.t) :
  forallb is_retrieval t = true -> ~ In (WorkerPost url p) t.
Proof.
  intros H Hin. rewrite forallb_forall in H. specialize (H _ Hin). discriminate.
Qed.

(** A request reaches the worker only after every retrieval and the
    catalog fetch succeeded, and it carries the payload built from them. *)
Lemma worker_post_inversion (env : Env) (formData : ProjectFormData.t)
    (selection : list SelectedDocument.t) (url : string) (p : Payload.t) :
  In (WorkerPost url p) (trace_of (generatePacket env formData selection)) ->
  exists entries data,
    result_of (documentsWithData_promise env (sortedDocs selection)) = Ok entries /\
    select_by_product_type env (ProjectFormData.productType formData) = Ok data /\
    p = payload_of formData entries
          (map (fun d => document_name d) (sortedDocs selection))
          (map mapDatabaseToDocument
             (match data with Some rows => rows | None => [] end)).
Proof.
  rewrite generatePacket_run. cbv zeta.
  destruct (sortedDocs selection) as [|d0 rest] eqn:Es; [intros []|].
  pose proof (promise_trace env (d0 :: rest)) as Ht.
  destruct (documentsWithData_promise env (d0 :: rest)) as [[entries|e] t].
  - destruct (select_by_product_type env _) as [data|e]; unfold trace_of; cbn [snd].
    + intros Hin. apply in_app_or in Hin as [Hin|[Hin|[Hin|[]]]].
      * now apply retrieval_is_not_post in Hin.
      * discriminate.
      * injection Hin as <- <-. exists entries, data. auto.
    + intros Hin. apply in_app_or in Hin as [Hin|[Hin|[]]].
      * now apply retrieval_is_not_post in Hin.
      * discriminate.
  - unfold trace_of; cbn [snd]. intros Hin.
    now apply retrieval_is_not_post in Hin.
Qed.

(** C1, as the code has it: when the call of the encoder for a selected
    document throws -- the lookup of its record fails or the reader reports
    an error; a throwing fetch of the content is answered [null] by the
    encoder and is not such a throw -- [generatePacket] throws "Failed to
    process document: <name>" for a selected document whose retrieval
    throws -- for that very document when it is the only one -- no packet
    is returned and nothing is sent to the worker: the only requests are
    those of the retrievals. *)
Theorem retrieval_failure_aborts (env : Env) (formData : ProjectFormData.t)
    (selection : list SelectedDocument.t) (d : SelectedDocument.t) :
  In d selection -> SelectedDocument.selected d = true ->
  retrieval_throws env d ->
  (exists d',
     In d' selection /\ SelectedDocument.selected d' = true /\
     retrieval_throws env d' /\
     result_of (generatePacket env formData selection)
       = Throw (DocumentProcessingError (document_name d'))) /\
  ((forall d', In d' selection -> SelectedDocument.selected d' = true ->
               retrieval_throws env d' -> document_name d' = document_name d) ->
   result_of (generatePacket env formData selection)
     = Throw (DocumentProcessingError (document_name d))) /\
  forallb is_retrieval (trace_of (generatePacket env formData selection)) = true /\
  (forall url p,
     ~ In (WorkerPost url p) (trace_of (generatePacket env formData selection))).
Proof.
  intros Hin Hsel Hthrows.
  assert (Hd : In d (sortedDocs selection)) by (apply In_sortedDocs; auto).
  destruct (promise_rejects env (sortedDocs selection) d Hd Hthrows)
    as (d' & Hd' & Ht' & Hr).
  apply In_sortedDocs in Hd' as [Hin' Hsel'].
  assert (Hrun : generatePacket env formData selection
                 = (Throw (DocumentProcessingError (document_name d')),
                    trace_of (documentsWithData_promise env (sortedDocs selection)))).
  { rewrite generatePacket_run. cbv zeta.
    destruct (sortedDocs selection) as [|d0 rest]; [contradiction|].
    destruct (documentsWithData_promise env (d0 :: rest)) as [r t].
    unfold result_of in Hr. cbn [fst] in Hr. subst r. reflexivity. }
  assert (Htrace : forallb is_retrieval
                     (trace_of (generatePacket env formData selection)) = true).
  { rewrite Hrun. apply promise_trace. }
  repeat split.
  - exists d'. rewrite Hrun. auto.
  - intros Huniq. rewrite Hrun. unfold result_of; cbn [fst].
    now rewrite (Huniq d' Hin' Hsel' Ht').
  - exact Htrace.
  - intros url p. now apply retrieval_is_not_post.
Qed.

Lemma retrieval_failure_aborts_witness :
  let env := Sample.env (Ok Sample.pdf_response) in
  let selection :=
    [Sample.pick "a" true 1; Sample.pick "broken" true 2; Sample.pick "c" true 3] in
  result_of (generatePacket env Sample.formData selection)
    = Throw (DocumentProcessingError "Document broken") /\
  forallb is_retrieval (trace_of (generatePacket env Sample.formData selection)) = true.
Proof.
  cbv zeta.
  destruct (retrieval_failure_aborts (Sample.env (Ok Sample.pdf_response))
              Sample.formData
              [Sample.pick "a" true 1; Sample.pick "broken" true 2;
               Sample.pick "c" true 3]
              (Sample.pick "broken" true 2)) as (_ & Hname & Htrace & _).
  - simpl. auto.
  - reflexivity.
  - exists (NonError "PostgrestError"). reflexivity.
  - split; [|exact Htrace]. apply Hname.
    intros d' [<-|[<-|[<-|[]]]] _ [e He]; try reflexivity; discriminate.
Defined.

(** A content that cannot be fetched is not a throwing retrieval: the
    encoder answers [null], the entry goes without [fileData], and the
    payload is posted. *)
Lemma fetch_failure_posts_without_content :
  let env := Sample.env (Ok Sample.pdf_response) in
  let selection := [Sample.pick "offline" true 1] in
  ~ retrieval_throws env (Sample.pick "offline" true 1) /\
  result_of (generatePacket env Sample.formData selection) = Ok Sample.pdf_bytes /\
  exists p,
    In (WorkerPost "https://worker.example/generate-packet" p)
       (trace_of (generatePacket env Sample.formData selection)) /\
    map DocumentEntry.fileData (Payload.documents p) = [None].
Proof.
  cbv zeta. split; [|split].
  - intros [e He]. discriminate.
  - reflexivity.
  - eexists. split.
    + vm_compute. right; right; right; left. reflexivity.
    + reflexivity.
Qed.

(** C2: when no entry of the selection is selected (the empty selection
    included), [generatePacket] throws "No documents selected for packet
    generation" and issues no request at all. *)
Theorem empty_selection_fails (env : Env) (formData : ProjectFormData.t)
    (selection : list SelectedDocument.t) :
  (forall d, In d selection -> SelectedDocument.selected d = false) ->
  generatePacket env formData selection = (Throw EmptySelectionError, []).
Proof.
  intros H. rewrite generatePacket_run. cbv zeta.
  now rewrite (sortedDocs_nil selection H).
Qed.

Lemma empty_selection_fails_witness :
  generatePacket (Sample.env (Ok Sample.pdf_response)) Sample.formData
    [Sample.pick "a" false 1; Sample.pick "b" false 2]
  = (Throw EmptySelectionError, []).
Proof.
  apply empty_selection_fails.
  intros d [<-|[<-|[]]]; reflexivity.
Defined.

Lemma StronglySorted_map {A B} (f : A -> B) (R : B -> B -> Prop) (l : list A) :
  StronglySorted (fun a b => R (f a) (f b)) l -> StronglySorted R (map f l).
Proof.
  induction 1 as [|x l Hs IH Hx]; cbn; constructor; [exact IH|].
  apply Forall_map. exact Hx.
Qed.

(** C3, as the code has it: for a selection with a selected entry, the
    sorted list is not empty, holds exactly the selected entries, is in
    ascending [order] -- strictly ascending when the selected entries have
    pairwise distinct orders -- and entries of equal [order] keep the
    sequence of the selection; the documents and the names of every
    payload sent to the worker follow that list. *)
Theorem sorted_selection (env : Env) (formData : ProjectFormData.t)
    (selection : list SelectedDocument.t) :
  (exists d, In d selection /\ SelectedDocument.selected d = true) ->
  sortedDocs selection <> [] /\
  Permutation (sortedDocs selection)
              (filter SelectedDocument.selected selection) /\
  (forall d, In d (sortedDocs selection) <->
             In d selection /\ SelectedDocument.selected d = true) /\
  ascending (orders (sortedDocs selection)) /\
  (forall k, filter (has_order k) (sortedDocs selection)
             = filter (has_order k) (filter SelectedDocument.selected selection)) /\
  (NoDup (orders (filter SelectedDocument.selected selection)) ->
   strictly_ascending (orders (sortedDocs selection))) /\
  (forall url p,
     In (WorkerPost url p) (trace_of (generatePacket env formData selection)) ->
     map DocumentEntry.id (Payload.documents p)
       = map SelectedDocument.id (sortedDocs selection) /\
     map DocumentEntry.name (Payload.documents p)
       = map (fun d => document_name d) (sortedDocs selection) /\
     Payload.selectedDocumentNames p
       = map (fun d => document_name d) (sortedDocs selection)).
Proof.
  intros Hsome. split; [now apply sortedDocs_not_nil|].
  split; [apply (sort_perm SelectedDocument.order)|].
  split; [apply In_sortedDocs|].
  split; [apply StronglySorted_map, (sort_sorted SelectedDocument.order)|].
  split; [intros k; apply (sort_stable SelectedDocument.order)|].
  split.
  - intros Hn. apply StronglySorted_map.
    now apply (sort_strict SelectedDocument.order).
  - intros url p Hin.
    apply worker_post_inversion in Hin as (entries & data & Hr & _ & ->).
    apply promise_fulfilled in Hr as (Hid & Hname & _).
    cbn [payload_of Payload.documents Payload.selectedDocumentNames]. auto.
Qed.

Lemma sorted_selection_witness :
  let selection :=
    [Sample.pick "a" true 2; Sample.pick "b" false 0; Sample.pick "c" true 1] in
  sortedDocs selection <> [] /\
  ascending (orders (sortedDocs selection)).
Proof.
  cbv zeta.
  destruct (sorted_selection (Sample.env (Ok Sample.pdf_response)) Sample.formData
              [Sample.pick "a" true 2; Sample.pick "b" false 0;
               Sample.pick "c" true 1]) as (H1 & _ & _ & H2 & _).
  - exists (Sample.pick "a" true 2). split; [simpl; auto | reflexivity].
  - split; assumption.
Defined.

(** C3, as stated, fails: two selected entries of equal [order] are both
    kept, so the orders of the sorted list are not strictly ascending. *)
Lemma sorted_ties_not_strict :
  let selection := [Sample.pick "a" true 1; Sample.pick "b" true 1] in
  (exists d, In d selection /\ SelectedDocument.selected d = true) /\
  orders (sortedDocs selection) = [1; 1] /\
  ~ strictly_ascending (orders (sortedDocs selection)).
Proof.
  cbv zeta. split; [|split].
  - exists (Sample.pick "a" true 1). split; [simpl; auto | reflexivity].
  - reflexivity.
  - intros H. change (orders _) with [1; 1] in H.
    inversion H as [|? ? _ Hall]; subst.
    inversion Hall as [|? ? Hlt _]; subst. lia.
Qed.

(** C4: every payload sent to the worker has both flag groups: the
    caller's group when the form data has one, and otherwise the group
    with every flag [false]. *)
Theorem default_flag_groups (env : Env) (formData : ProjectFormData.t)
    (selection : list SelectedDocument.t) (url : string) (p : Payload.t) :
  In (WorkerPost url p) (trace_of (generatePacket env formData selection)) ->
  (forall s, ProjectFormData.status formData = Some s ->
             ProjectData.status (Payload.projectData p) = s) /\
  (ProjectFormData.status formData = None ->
   status_all_false (ProjectData.status (Payload.projectData p))) /\
  (forall s, ProjectFormData.submittalType formData = Some s ->
             ProjectData.submittalType (Payload.projectData p) = s) /\
  (ProjectFormData.submittalType formData = None ->
   submittalType_all_false (ProjectData.submittalType (Payload.projectData p))) /\
  ProjectData.productType (Payload.projectData p)
    = ProjectFormData.productType formData /\
  ProjectData.otherFields (Payload.projectData p)
    = ProjectFormData.otherFields formData.
Proof.
  intros Hin.
  apply worker_post_inversion in Hin as (entries & data & _ & _ & ->).
  cbn [payload_of Payload.projectData ProjectData.status
       ProjectData.submittalType ProjectData.productType
       ProjectData.otherFields].
  repeat split; try reflexivity; try (intros s ->; reflexivity);
    match goal with H : _ = None |- _ => rewrite H; reflexivity end.
Qed.

Lemma default_flag_groups_witness :
  status_all_false (ProjectData.status (Payload.projectData Sample.payload)) /\
  submittalType_all_false
    (ProjectData.submittalType (Payload.projectData Sample.payload)).
Proof.
  destruct (default_flag_groups (Sample.env (Ok Sample.pdf_response))
              Sample.formData [Sample.pick "a" true 1]
              "https://worker.example/generate-packet" Sample.payload)
    as (_ & Hs & _ & Ht & _).
  - vm_compute. right; right; right; left. reflexivity.
  - split; [apply Hs | apply Ht]; reflexivity.
Defined.

(** *** The answer of the worker *)

Lemma post_payload_success (env : Env) (p : Payload.t) (response : Response.t) :
  worker_post env (workerUrl env ++ "/generate-packet") p = Ok response ->
  Response.ok response = true ->
  result_of (post_payload env p) =
  match Response.body_bytes response with
  | [] => Throw EmptyArtifactError
  | _ :: _ => Ok (Response.body_bytes response)
  end.
Proof.
  intros Hp Hok. unfold post_payload. cbv zeta. rewrite Hp. run.
  rewrite Hok. cbn [negb]. unfold Response_arrayBuffer. cbn [fst].
  destruct (Response.body_bytes response); reflexivity.
Qed.

(** A failure answer whose body is JSON with a readable detail. *)
Lemma post_payload_json (env : Env) (p : Payload.t) (response : Response.t)
    (errorData : Json) (detail : string) :
  worker_post env (workerUrl env ++ "/generate-packet") p = Ok response ->
  Response.ok response = false ->
  Response.body_json response = Some errorData ->
  message_or_stringify env errorData = Ok detail ->
  result_of (post_payload env p)
  = Throw (RenderError (Response.status response)
                       (Response.statusText response) detail).
Proof.
  intros Hp Hok Hj Hm. unfold post_payload. cbv zeta. rewrite Hp. run.
  rewrite Hok. cbn [negb]. unfold failed_response, Response_json. rewrite Hj. run.
  rewrite Hm. cbn. unfold RenderError.
  now rewrite !JsFacts.append_assoc.
Qed.

(** A failure answer whose body is not JSON: the body was consumed by
    [json()], so [text()] throws and the status is lost. *)
Lemma post_payload_plain_text (env : Env) (p : Payload.t) (response : Response.t) :
  worker_post env (workerUrl env ++ "/generate-packet") p = Ok response ->
  Response.ok response = false ->
  Response.body_json response = None ->
  result_of (post_payload env p) = Throw (TypeErrorObj (body_used_message env)).
Proof.
  intros Hp Hok Hj. unfold post_payload. cbv zeta. rewrite Hp. run.
  rewrite Hok. cbn [negb]. unfold failed_response, Response_json. rewrite Hj.
  reflexivity.
Qed.

(** When every retrieval and the catalog fetch succeed, the payload is
    posted and the outcome is that of the post. *)
Lemma generatePacket_posts (env : Env) (formData : ProjectFormData.t)
    (selection : list SelectedDocument.t) :
  (exists d, In d selection /\ SelectedDocument.selected d = true) ->
  (forall d, In d selection -> SelectedDocument.selected d = true ->
             ~ retrieval_throws env d) ->
  (forall e, select_by_product_type env (ProjectFormData.productType formData)
             <> Throw e) ->
  exists p,
    In (WorkerPost (workerUrl env ++ "/generate-packet") p)
       (trace_of (generatePacket env formData selection)) /\
    result_of (generatePacket env formData selection) =
    match result_of (post_payload env p) with
    | Ok bytes => Ok bytes
    | Throw e => Throw (rethrown env e)
    end.
Proof.
  intros Hsome Hno Hcat.
  apply sortedDocs_not_nil in Hsome.
  destruct (promise_fulfils env (sortedDocs selection)) as [entries He].
  { intros d Hd. apply In_sortedDocs in Hd as [Hin Hs]. now apply Hno. }
  rewrite generatePacket_run. cbv zeta.
  destruct (sortedDocs selection) as [|d0 rest]; [contradiction|].
  destruct (documentsWithData_promise env (d0 :: rest)) as [r t].
  unfold result_of in He. cbn [fst] in He. subst r.
  destruct (select_by_product_type env _) as [data|e]; [|now elim (Hcat e)].
  eexists. split; [|reflexivity].
  unfold trace_of. cbn [snd]. apply in_or_app. right. right. now left.
Qed.

(** C6: when the worker answers a success status, [generatePacket] throws
    "Received empty PDF from worker" if the body has no byte, and returns
    exactly the bytes of the body otherwise. *)
Theorem empty_artifact_rejected (env : Env) (formData : ProjectFormData.t)
    (selection : list SelectedDocument.t) (response : Response.t) :
  (exists d, In d selection /\ SelectedDocument.selected d = true) ->
  (forall d, In d selection -> SelectedDocument.selected d = true ->
             ~ retrieval_throws env d) ->
  (forall e, select_by_product_type env (ProjectFormData.productType formData)
             <> Throw e) ->
  (forall p, worker_post env (workerUrl env ++ "/generate-packet") p = Ok response) ->
  200 <= Response.status response <= 299 ->
  (Response.body_bytes response = [] ->
   result_of (generatePacket env formData selection) = Throw EmptyArtifactError) /\
  (Response.body_bytes response <> [] ->
   result_of (generatePacket env formData selection)
   = Ok (Response.body_bytes response)).
Proof.
  intros Hsome Hno Hcat Hpost Hstatus.
  destruct (generatePacket_posts env formData selection Hsome Hno Hcat)
    as (p & _ & ->).
  assert (Hok : Response.ok response = true).
  { unfold Response.ok. apply andb_true_iff. split; apply Z.leb_le; lia. }
  rewrite (post_payload_success env p response (Hpost p) Hok).
  destruct (Response.body_bytes response); split; intros H;
    try reflexivity; try discriminate; now elim H.
Qed.

Lemma empty_artifact_rejected_witness :
  result_of (generatePacket (Sample.env (Ok Sample.empty_response))
               Sample.formData [Sample.pick "a" true 1])
    = Throw EmptyArtifactError /\
  result_of (generatePacket (Sample.env (Ok Sample.pdf_response))
               Sample.formData [Sample.pick "a" true 1])
    = Ok Sample.pdf_bytes.
Proof.
  split.
  - apply (empty_artifact_rejected (Sample.env (Ok Sample.empty_response))
             Sample.formData [Sample.pick "a" true 1] Sample.empty_response).
    + exists (Sample.pick "a" true 1). split; [simpl; auto | reflexivity].
    + intros d [<-|[]] _ [e He]. discriminate.
    + discriminate.
    + reflexivity.
    + simpl. lia.
    + reflexivity.
  - apply (empty_artifact_rejected (Sample.env (Ok Sample.pdf_response))
             Sample.formData [Sample.pick "a" true 1] Sample.pdf_response).
    + exists (Sample.pick "a" true 1). split; [simpl; auto | reflexivity].
    + intros d [<-|[]] _ [e He]. discriminate.
    + discriminate.
    + reflexivity.
    + simpl. lia.
    + discriminate.
Defined.

(** A failure answer whose JSON body has a non-empty string [message]:
    the error carries the status and that message. *)
Lemma render_error_json_message (env : Env) (formData : ProjectFormData.t)
    (selection : list SelectedDocument.t) (response : Response.t)
    (properties : list (string * Json)) (m : string) :
  (exists d, In d selection /\ SelectedDocument.selected d = true) ->
  (forall d, In d selection -> SelectedDocument.selected d = true ->
             ~ retrieval_throws env d) ->
  (forall e, select_by_product_type env (ProjectFormData.productType formData)
             <> Throw e) ->
  (forall p, worker_post env (workerUrl env ++ "/generate-packet") p = Ok response) ->
  Response.ok response = false ->
  Response.body_json response = Some (JObject (("message", JString m) :: properties)) ->
  m <> EmptyString ->
  result_of (generatePacket env formData selection)
    = Throw (RenderError (Response.status response)
                         (Response.statusText response) m) /\
  includes (message (RenderError (Response.status response)
                                 (Response.statusText response) m)) m = true.
Proof.
  intros Hsome Hno Hcat Hpost Hok Hj Hm.
  destruct (generatePacket_posts env formData selection Hsome Hno Hcat)
    as (p & _ & ->).
  split.
  - rewrite (post_payload_json env p response _ m (Hpost p) Hok Hj).
    + reflexivity.
    + unfold message_or_stringify. cbn.
      destruct m; [now elim Hm | reflexivity].
  - unfold RenderError, message. rewrite <- !JsFacts.append_assoc.
    apply JsFacts.includes_app_r.
Qed.

(** HTTP 500 with the JSON body whose [message] is [boom]. *)
Lemma render_error_boom :
  result_of (generatePacket (Sample.env (Ok Sample.boom_response))
               Sample.formData [Sample.pick "a" true 1])
  = Throw (ErrorObj "Worker request failed: 500 Internal Server Error - boom").
Proof. reflexivity. Qed.

(** A failure answer whose body is not JSON never gives the error that
    carries the status and the text: what is thrown is the [TypeError] of
    the second read of the body, or the connection error made from it. *)
Lemma plain_text_never_render_error (env : Env) (formData : ProjectFormData.t)
    (selection : list SelectedDocument.t) (response : Response.t) :
  (exists d, In d selection /\ SelectedDocument.selected d = true) ->
  (forall d, In d selection -> SelectedDocument.selected d = true ->
             ~ retrieval_throws env d) ->
  (forall e, select_by_product_type env (ProjectFormData.productType formData)
             <> Throw e) ->
  (forall p, worker_post env (workerUrl env ++ "/generate-packet") p = Ok response) ->
  Response.ok response = false ->
  Response.body_json response = None ->
  result_of (generatePacket env formData selection)
    = Throw (rethrown env (TypeErrorObj (body_used_message env))) /\
  forall status statusText detail,
    rethrown env (TypeErrorObj (body_used_message env))
    <> RenderError status statusText detail.
Proof.
  intros Hsome Hno Hcat Hpost Hok Hj.
  destruct (generatePacket_posts env formData selection Hsome Hno Hcat)
    as (p & _ & ->).
  rewrite (post_payload_plain_text env p response (Hpost p) Hok Hj).
  split; [reflexivity|].
  intros status statusText detail. unfold rethrown, RenderError.
  cbn [instanceofTypeError instanceofError message andb].
  destruct (includes (body_used_message env) "fetch"); discriminate.
Qed.

(** C5 fails on the code for a body that is not JSON: for HTTP 500 with the
    plain-text body [upstream timeout], [generatePacket] throws the
    [TypeError] of reading a consumed body; the error carries neither the
    status nor the text. *)
Theorem plain_text_failure_loses_status :
  let env := Sample.env (Ok Sample.text_response) in
  Response.status Sample.text_response = 500 /\
  Response.body_text Sample.text_response = "upstream timeout" /\
  result_of (generatePacket env Sample.formData [Sample.pick "a" true 1])
    = Throw (TypeErrorObj
               "Failed to execute 'text' on 'Response': body stream already read") /\
  result_of (generatePacket env Sample.formData [Sample.pick "a" true 1])
    <> Throw (RenderError 500 "Internal Server Error" "upstream timeout").
Proof.
  cbv zeta. repeat split; try reflexivity. discriminate.
Qed.

End Assembler.

(** ** The artifact presenter *)

Module Presenter.
Import PDFService Spec.

Lemma download_name_fixed (filename : string) :
  download_name filename = filename <-> endsWith filename ".pdf" = true.
Proof.
  unfold download_name. destruct (endsWith filename ".pdf"); cbn [negb].
  - tauto.
  - split; [|discriminate]. intros H.
    apply (f_equal String.length) in H. rewrite JsFacts.length_app in H.
    cbn in H. lia.
Qed.

(** C7: [downloadPDF] saves under [download_name filename]: that name ends
    in [.pdf], it is [filename] itself exactly when [filename] already ends
    in [.pdf] and [filename ++ ".pdf"] otherwise; [report] gives
    [report.pdf], [report.pdf] is kept, and the transformation is
    idempotent. *)
Theorem download_name_pdf (env : Env) (pdfBytes : list byte) (filename : string) :
  download_name "report" = "report.pdf" /\
  download_name "report.pdf" = "report.pdf" /\
  endsWith (download_name filename) ".pdf" = true /\
  (download_name filename = filename <-> endsWith filename ".pdf" = true) /\
  (download_name filename = filename ++ ".pdf" <-> endsWith filename ".pdf" = false) /\
  download_name (download_name filename) = download_name filename /\
  trace_of (downloadPDF env pdfBytes filename) =
  match createObjectURL env pdfBytes "application/pdf" with
  | Ok url => [CreateObjectURL pdfBytes "application/pdf";
               AnchorClick url (download_name filename);
               RevokeObjectURL url]
  | Throw _ => [CreateObjectURL pdfBytes "application/pdf"]
  end.
Proof.
  assert (Hends : endsWith (download_name filename) ".pdf" = true).
  { unfold download_name. destruct (endsWith filename ".pdf") eqn:E; cbn [negb].
    - exact E.
    - apply JsFacts.endsWith_app. }
  split; [reflexivity|]. split; [reflexivity|]. split; [exact Hends|].
  split; [apply download_name_fixed|]. split; [|split].
  - unfold download_name. destruct (endsWith filename ".pdf") eqn:E; cbn [negb].
    + split; [|discriminate]. intros H.
      apply (f_equal String.length) in H. rewrite JsFacts.length_app in H.
      cbn in H. lia.
    + tauto.
  - now apply download_name_fixed.
  - unfold downloadPDF. cbv zeta. unfold trace_of, try_catch, bind, request, throw.
    destruct (createObjectURL env pdfBytes "application/pdf"); reflexivity.
Qed.

End Presenter.

(** ** Uploads *)

Module Upload.
Import DocumentService Spec.

(** C10: a file whose media type is not [application/pdf], whose size
    exceeds 52428800 bytes or is below 1024 bytes, or whose first bytes do
    not start with [%PDF], is rejected by [uploadDocument] with the message
    of a check it fails (the first one, in the order type, upper size, lower
    size, signature), and no request is issued: no storage upload and no
    database insert. *)
Theorem invalid_upload_rejected (env : Env) (file : File.t) (productType : string) :
  wrong_type file \/ too_large file \/ too_small file \/ wrong_signature file ->
  exists m,
    uploadDocument env file productType = (Throw (ErrorObj m), []) /\
    ((m = "File must be a PDF document" /\ wrong_type file) \/
     (m = "File size exceeds 50MB limit" /\ ~ wrong_type file /\ too_large file) \/
     (m = "File is too small to be a valid PDF" /\ ~ wrong_type file /\
      too_small file) \/
     (m = "File does not appear to be a valid PDF" /\ ~ wrong_type file /\
      ~ too_large file /\ ~ too_small file /\ wrong_signature file)).
Proof.
  unfold wrong_type, too_large, too_small, wrong_signature.
  intros H. unfold uploadDocument, validatePDF. cbv zeta.
  destruct (String.eqb (File.type file) "application/pdf") eqn:Et; cbn [negb].
  - apply String.eqb_eq in Et.
    destruct (File.size file >? MAX_SIZE) eqn:El.
    + apply Z.gtb_lt in El. unfold MAX_SIZE in El.
      eexists. split; [reflexivity|]. right. left.
      repeat split; [congruence | lia].
    + destruct (File.size file <? 1024) eqn:Es.
      * apply Z.ltb_lt in Es.
        eexists. split; [reflexivity|]. right. right. left.
        repeat split; [congruence | lia].
      * apply Z.ltb_ge in Es.
        assert (Hl : ~ File.size file > 52428800).
        { intros Hgt. apply Z.gt_lt in Hgt.
          change 52428800 with MAX_SIZE in Hgt.
          apply Z.gtb_lt in Hgt. congruence. }
        destruct H as [H|[H|[H|(content & Hc & Hsig)]]];
          [congruence | contradiction | lia |].
        rewrite Hc. cbv zeta. rewrite Hsig. cbn [negb].
        eexists. split; [reflexivity|]. right. right. right.
        repeat split; [congruence | exact Hl | lia |].
        exists content. auto.
  - apply String.eqb_neq in Et.
    eexists. split; [reflexivity|]. left. auto.
Qed.

Lemma invalid_upload_rejected_witness :
  exists m,
    uploadDocument (Sample.env (Ok Sample.pdf_response)) Sample.text_file
      "underlayment" = (Throw (ErrorObj m), []) /\
    ((m = "File must be a PDF document" /\ wrong_type Sample.text_file) \/
     (m = "File size exceeds 50MB limit" /\ ~ wrong_type Sample.text_file /\
      too_large Sample.text_file) \/
     (m = "File is too small to be a valid PDF" /\ ~ wrong_type Sample.text_file /\
      too_small Sample.text_file) \/
     (m = "File does not appear to be a valid PDF" /\
      ~ wrong_type Sample.text_file /\ ~ too_large Sample.text_file /\
      ~ too_small Sample.text_file /\ wrong_signature Sample.text_file)).
Proof.
  apply invalid_upload_rejected.
  left. discriminate.
Defined.

End Upload.

(** ** Runs of the packet service *)

Module PacketRuns.
Import DocumentService PDFService Spec Observed.
Import DocumentServiceFacts PDFServiceFacts Assembler.

Lemma rethrown_instance (env : Env) (e : Thrown) :
  instanceofError (rethrown env e) = true.
Proof.
  unfold rethrown.
  destruct (instanceofTypeError e && includes (message e) "fetch"); [reflexivity|].
  destruct (instanceofError e) eqn:E; [exact E | reflexivity].
Qed.

Lemma failed_response_throws (env : Env) (response : Response.t) :
  exists e, result_of (failed_response env response) = Throw e.
Proof.
  unfold failed_response, Response_json, Response_text. run.
  destruct (Response.body_json response) as [errorData|]; cbn; [|eauto].
  destruct (message_or_stringify env errorData); cbn; eauto.
Qed.

(** What a fulfilled post says about the answer. *)
Lemma post_payload_fulfilled (env : Env) (p : Payload.t) (bytes : list byte) :
  result_of (post_payload env p) = Ok bytes ->
  exists response,
    worker_post env (workerUrl env ++ "/generate-packet") p = Ok response /\
    Response.ok response = true /\
    Response.body_bytes response = bytes /\
    bytes <> [].
Proof.
  unfold post_payload. cbv zeta. unfold bind at 1, request.
  destruct (worker_post env _ p) as [response|e]; [|discriminate].
  destruct (Response.ok response) eqn:Hok; cbn [negb].
  - unfold Response_arrayBuffer. run.
    destruct (Response.body_bytes response) as [|b rest] eqn:Hb; cbn.
    + discriminate.
    + intros H; injection H as <-. exists response. repeat split; auto.
      discriminate.
  - destruct (failed_response_throws env response) as [e He].
    destruct (failed_response env response) as [r t].
    unfold result_of in *. cbn [fst] in *. subst r. discriminate.
Qed.

Lemma post_payload_rejected (env : Env) (p : Payload.t) (e : Thrown) :
  worker_post env (workerUrl env ++ "/generate-packet") p = Throw e ->
  result_of (post_payload env p) = Throw e.
Proof. intros H. unfold post_payload. cbv zeta. now rewrite H. Qed.

Lemma posts_app (t1 t2 : list Event) : posts (t1 ++ t2) = (posts t1 ++ posts t2)%list.
Proof.
  induction t1 as [|ev t1 IH]; [reflexivity|].
  destruct ev; cbn; rewrite IH; reflexivity.
Qed.

Lemma lookups_app (t1 t2 : list Event) :
  lookups (t1 ++ t2) = (lookups t1 ++ lookups t2)%list.
Proof.
  induction t1 as [|ev t1 IH]; [reflexivity|].
  destruct ev; cbn; rewrite IH; reflexivity.
Qed.

Lemma posts_retrieval (t : list Event) :
  forallb is_retrieval t = true -> posts t = [].
Proof.
  induction t as [|ev t IH]; [reflexivity|].
  cbn. intros H. apply andb_true_iff in H as [H1 H2].
  destruct ev; try discriminate; cbn; auto.
Qed.

(** X1: whatever [generatePacket] throws is an instance of [Error]: a
    thrown value of another kind (a rejected store query, a reader event)
    never reaches the caller. *)
Theorem throws_only_errors (env : Env) (formData : ProjectFormData.t)
    (selection : list SelectedDocument.t) (e : Thrown) :
  result_of (generatePacket env formData selection) = Throw e ->
  instanceofError e = true.
Proof.
  rewrite generatePacket_run. cbv zeta.
  destruct (sortedDocs selection) as [|d0 rest].
  - intros H; injection H as <-. reflexivity.
  - destruct (documentsWithData_promise env (d0 :: rest)) as [[entries|e0] t].
    + destruct (select_by_product_type env _) as [data|e1].
      * unfold result_of at 1. cbn [fst].
        destruct (result_of (post_payload env _)); [discriminate|].
        intros H; injection H as <-. apply rethrown_instance.
      * intros H; injection H as <-. apply rethrown_instance.
    + intros H; injection H as <-. apply rethrown_instance.
Qed.

Lemma throws_only_errors_witness :
  instanceofError (DocumentProcessingError "Document broken") = true.
Proof.
  apply (throws_only_errors (Sample.env (Ok Sample.pdf_response)) Sample.formData
           [Sample.pick "broken" true 1]).
  reflexivity.
Defined.

(** X2: a packet is returned only when every selected document was
    retrieved without a throw, exactly one payload was posted, the worker
    answered a success status, and the bytes returned are those of the
    body -- and they are not empty. *)
Theorem returned_packet (env : Env) (formData : ProjectFormData.t)
    (selection : list SelectedDocument.t) (bytes : list byte) :
  result_of (generatePacket env formData selection) = Ok bytes ->
  bytes <> [] /\
  (forall d, In d selection -> SelectedDocument.selected d = true ->
             ~ retrieval_throws env d) /\
  exists p response,
    posts (trace_of (generatePacket env formData selection)) = [p] /\
    worker_post env (workerUrl env ++ "/generate-packet") p = Ok response /\
    Response.ok response = true /\
    Response.body_bytes response = bytes.
Proof.
  rewrite generatePacket_run. cbv zeta.
  destruct (sortedDocs selection) as [|d0 rest] eqn:Es; [discriminate|].
  pose proof (promise_trace env (d0 :: rest)) as Ht.
  destruct (documentsWithData_promise env (d0 :: rest)) as [[entries|e0] t] eqn:Ep;
    [|discriminate].
  destruct (select_by_product_type env _) as [data|e1]; [|discriminate].
  unfold result_of at 1, trace_of at 1. cbn [fst snd].
  set (p := payload_of _ _ _ _).
  destruct (result_of (post_payload env p)) as [bs|e2] eqn:Er; [|discriminate].
  intros H; injection H as <-.
  apply post_payload_fulfilled in Er as (response & Hp & Hok & Hb & Hne).
  split; [exact Hne|]. split.
  - intros d Hin Hsel.
    assert (Hd : In d (d0 :: rest)) by (rewrite <- Es; apply In_sortedDocs; auto).
    assert (Hr : result_of (documentsWithData_promise env (d0 :: rest)) = Ok entries)
      by (rewrite Ep; reflexivity).
    apply promise_fulfilled in Hr as (_ & _ & Hno). now apply Hno.
  - exists p, response. repeat split; auto.
    unfold trace_of in Ht. cbn [snd] in Ht.
    rewrite posts_app, (posts_retrieval t Ht). reflexivity.
Qed.

Lemma returned_packet_witness :
  Sample.pdf_bytes <> [] /\
  exists p response,
    posts (trace_of (generatePacket (Sample.env (Ok Sample.pdf_response))
                       Sample.formData [Sample.pick "a" true 1])) = [p] /\
    worker_post (Sample.env (Ok Sample.pdf_response))
      (workerUrl (Sample.env (Ok Sample.pdf_response)) ++ "/generate-packet") p
      = Ok response /\
    Response.ok response = true /\
    Response.body_bytes response = Sample.pdf_bytes.
Proof.
  destruct (returned_packet (Sample.env (Ok Sample.pdf_response)) Sample.formData
              [Sample.pick "a" true 1] Sample.pdf_bytes) as (H1 & _ & H2).
  - reflexivity.
  - split; assumption.
Defined.

(** X3: when the post to the worker throws a [TypeError], the caller gets
    the connection error that names the worker URL if the message of the
    [TypeError] contains [fetch], and the [TypeError] itself otherwise. *)
Theorem unreachable_worker (env : Env) (formData : ProjectFormData.t)
    (selection : list SelectedDocument.t) (m : string) :
  (exists d, In d selection /\ SelectedDocument.selected d = true) ->
  (forall d, In d selection -> SelectedDocument.selected d = true ->
             ~ retrieval_throws env d) ->
  (forall e, select_by_product_type env (ProjectFormData.productType formData)
             <> Throw e) ->
  (forall p, worker_post env (workerUrl env ++ "/generate-packet") p
             = Throw (TypeErrorObj m)) ->
  result_of (generatePacket env formData selection)
    = Throw (if includes m "fetch" then ErrorObj (unreachable_message env)
             else TypeErrorObj m) /\
  includes (unreachable_message env) (workerUrl env) = true.
Proof.
  intros Hsome Hno Hcat Hpost.
  destruct (generatePacket_posts env formData selection Hsome Hno Hcat)
    as (p & _ & ->).
  rewrite (post_payload_rejected env p _ (Hpost p)).
  split.
  - unfold rethrown. cbn [instanceofTypeError instanceofError message andb].
    destruct (includes m "fetch"); reflexivity.
  - unfold unreachable_message. apply JsFacts.includes_middle.
Qed.

Lemma unreachable_worker_witness :
  result_of (generatePacket (Sample.env (Throw (TypeErrorObj "Failed to fetch")))
               Sample.formData [Sample.pick "a" true 1])
  = Throw (ErrorObj (unreachable_message
                       (Sample.env (Throw (TypeErrorObj "Failed to fetch"))))).
Proof.
  destruct (unreachable_worker (Sample.env (Throw (TypeErrorObj "Failed to fetch")))
              Sample.formData [Sample.pick "a" true 1] "Failed to fetch")
    as [H _].
  - exists (Sample.pick "a" true 1). split; [simpl; auto | reflexivity].
  - intros d [<-|[]] _ [e He]. discriminate.
  - discriminate.
  - reflexivity.
  - exact H.
Defined.

(** X4: when the catalog fetch throws, nothing is posted to the worker and
    the thrown value goes through the outer handler: a [TypeError] whose
    message contains [fetch] is replaced by the connection error that names
    the worker URL, any other instance of [Error] reaches the caller
    unchanged, and a value that is not an instance of [Error] is replaced
    by the error "Failed to generate PDF packet". *)
Theorem catalog_failure (env : Env) (formData : ProjectFormData.t)
    (selection : list SelectedDocument.t) (e : Thrown) :
  (exists d, In d selection /\ SelectedDocument.selected d = true) ->
  (forall d, In d selection -> SelectedDocument.selected d = true ->
             ~ retrieval_throws env d) ->
  select_by_product_type env (ProjectFormData.productType formData) = Throw e ->
  result_of (generatePacket env formData selection) = Throw (rethrown env e) /\
  (instanceofError e = false ->
   result_of (generatePacket env formData selection)
   = Throw (ErrorObj "Failed to generate PDF packet")) /\
  (instanceofTypeError e && includes (message e) "fetch" = true ->
   result_of (generatePacket env formData selection)
   = Throw (ErrorObj (unreachable_message env))) /\
  (instanceofError e = true ->
   instanceofTypeError e && includes (message e) "fetch" = false ->
   result_of (generatePacket env formData selection) = Throw e) /\
  (forall m, e = ErrorObj m ->
   result_of (generatePacket env formData selection) = Throw (ErrorObj m)) /\
  posts (trace_of (generatePacket env formData selection)) = [].
Proof.
  intros Hsome Hno Hcat.
  apply sortedDocs_not_nil in Hsome.
  destruct (promise_fulfils env (sortedDocs selection)) as [entries He].
  { intros d Hd. apply In_sortedDocs in Hd as [Hin Hs]. now apply Hno. }
  pose proof (promise_trace env (sortedDocs selection)) as Ht.
  assert (Hrun : generatePacket env formData selection
                 = (Throw (rethrown env e),
                    (trace_of (documentsWithData_promise env (sortedDocs selection))
                     ++ [DbSelectByProductType (ProjectFormData.productType formData)])%list)).
  { rewrite generatePacket_run. cbv zeta.
    destruct (sortedDocs selection) as [|d0 rest]; [contradiction|].
    destruct (documentsWithData_promise env (d0 :: rest)) as [r t].
    unfold result_of in He. cbn [fst] in He. subst r. rewrite Hcat. reflexivity. }
  rewrite Hrun. unfold result_of. cbn [fst].
  split; [reflexivity|]. split; [|split; [|split; [|split]]].
  - intros Hi. unfold rethrown. rewrite Hi.
    destruct e; try discriminate. reflexivity.
  - intros Hf. unfold rethrown. rewrite Hf. reflexivity.
  - intros Hi Hf. unfold rethrown. rewrite Hf, Hi. reflexivity.
  - intros m ->. reflexivity.
  - unfold trace_of at 1. cbn [snd].
    rewrite posts_app, (posts_retrieval _ Ht). reflexivity.
Qed.

Lemma catalog_failure_witness :
  let env := Scenario.with_catalog (Throw (NonError "PostgrestError"))
                                   (Ok Sample.pdf_response) in
  result_of (generatePacket env Sample.formData [Sample.pick "a" true 1])
    = Throw (ErrorObj "Failed to generate PDF packet") /\
  posts (trace_of (generatePacket env Sample.formData [Sample.pick "a" true 1])) = [].
Proof.
  cbv zeta.
  destruct (catalog_failure
              (Scenario.with_catalog (Throw (NonError "PostgrestError"))
                                     (Ok Sample.pdf_response))
              Sample.formData [Sample.pick "a" true 1] (NonError "PostgrestError"))
    as (_ & H1 & _ & _ & _ & H2).
  - exists (Sample.pick "a" true 1). split; [simpl; auto | reflexivity].
  - intros d [<-|[]] _ [e He]. discriminate.
  - reflexivity.
  - split; [apply H1; reflexivity | exact H2].
Defined.

Lemma export_lookups (env : Env) (id : string) :
  lookups (trace_of (exportDocumentAsBase64 env id)) = [id].
Proof.
  unfold exportDocumentAsBase64, getDocument. run.
  destruct (select_document env id) as [[row|]|e]; cbn; try reflexivity.
  destruct (emptyb (DbRow.file_url row)); cbn; [reflexivity|].
  destruct (http_get env (DbRow.file_url row)) as [[blob|e]|e]; cbn; reflexivity.
Qed.

Lemma promise_lookups (env : Env) (docs : list SelectedDocument.t) :
  lookups (trace_of (documentsWithData_promise env docs))
  = map (fun d => document_id d) docs.
Proof.
  unfold documentsWithData_promise. rewrite Promise_all_trace.
  induction docs as [|d docs IH]; [reflexivity|].
  cbn [map List.concat snd].
  rewrite lookups_app, IH, documentWithData_trace, export_lookups. reflexivity.
Qed.

(** X5: in every run, the records looked up in the store are those of the
    selected entries, once each, in the sorted order -- also when a
    retrieval throws, and none at all for an empty selection. *)
Theorem lookups_of_selection (env : Env) (formData : ProjectFormData.t)
    (selection : list SelectedDocument.t) :
  lookups (trace_of (generatePacket env formData selection))
  = map (fun d => document_id d) (sortedDocs selection).
Proof.
  rewrite generatePacket_run. cbv zeta.
  destruct (sortedDocs selection) as [|d0 rest]; [reflexivity|].
  pose proof (promise_lookups env (d0 :: rest)) as Hl.
  destruct (documentsWithData_promise env (d0 :: rest)) as [[entries|e0] t];
    unfold trace_of in *; cbn [snd] in *.
  - destruct (select_by_product_type env _) as [data|e1]; cbn [snd];
      rewrite lookups_app, Hl; cbn [lookups]; apply app_nil_r.
  - exact Hl.
Qed.

Lemma fulfilled_entry (env : Env) (docs : list SelectedDocument.t)
    (entries : list DocumentEntry.t) (entry : DocumentEntry.t) :
  result_of (documentsWithData_promise env docs) = Ok entries ->
  In entry entries ->
  exists d, In d docs /\ result_of (documentWithData env d) = Ok entry.
Proof.
  unfold documentsWithData_promise. rewrite Promise_all_result. cbv zeta.
  rewrite map_map. cbn [fst snd].
  destruct (first_rejection _) as [[t e]|]; [discriminate|].
  intros H; injection H as <-.
  induction docs as [|d docs IH]; [intros []|].
  cbn [map fulfilled].
  destruct (result_of (documentWithData env d)) as [en|e] eqn:E.
  - intros [<-|Hin].
    + exists d. split; [now left | exact E].
    + destruct (IH Hin) as (d' & Hd' & Hr). exists d'. split; [now right | exact Hr].
  - intros Hin. destruct (IH Hin) as (d' & Hd' & Hr).
    exists d'. split; [now right | exact Hr].
Qed.

(** X6: in a posted payload, the [fileData] of an entry, when present, is
    the non-empty text that the encoder answered for the document of a
    selected entry; an empty text is never sent. *)
Theorem posted_fileData (env : Env) (formData : ProjectFormData.t)
    (selection : list SelectedDocument.t) (url : string) (p : Payload.t)
    (entry : DocumentEntry.t) (text : string) :
  In (WorkerPost url p) (trace_of (generatePacket env formData selection)) ->
  In entry (Payload.documents p) ->
  DocumentEntry.fileData entry = Some text ->
  text <> EmptyString /\
  exists d,
    In d selection /\ SelectedDocument.selected d = true /\
    DocumentEntry.id entry = SelectedDocument.id d /\
    result_of (exportDocumentAsBase64 env (document_id d)) = Ok (Str text).
Proof.
  intros Hpost Hin Hdata.
  apply worker_post_inversion in Hpost as (entries & data & Hr & _ & ->).
  cbn [payload_of Payload.documents] in Hin.
  destruct (fulfilled_entry env _ entries entry Hr Hin) as (d & Hd & He).
  apply In_sortedDocs in Hd as [Hd Hs].
  rewrite documentWithData_result in He.
  destruct (result_of (exportDocumentAsBase64 env (document_id d))) as [fd|e] eqn:Ex;
    [|discriminate].
  injection He as <-. cbn [DocumentEntry.fileData DocumentEntry.id] in *.
  destruct fd as [| |s]; try discriminate. cbn in Hdata.
  destruct s as [|c s]; [discriminate|]. cbn in Hdata. injection Hdata as <-.
  split; [discriminate|]. exists d. auto.
Qed.

Lemma posted_fileData_witness :
  "JVBERi0xLjQ=" <> EmptyString /\
  exists d,
    In d [Sample.pick "a" true 1] /\ SelectedDocument.selected d = true /\
    DocumentEntry.id (Sample.entry "a") = SelectedDocument.id d /\
    result_of (exportDocumentAsBase64 (Sample.env (Ok Sample.pdf_response))
                 (document_id d)) = Ok (Str "JVBERi0xLjQ=").
Proof.
  apply (posted_fileData (Sample.env (Ok Sample.pdf_response)) Sample.formData
           [Sample.pick "a" true 1] "https://worker.example/generate-packet"
           Sample.payload (Sample.entry "a") "JVBERi0xLjQ=").
  - vm_compute. right; right; right; left. reflexivity.
  - left. reflexivity.
  - reflexivity.
Defined.

End PacketRuns.

(** ** Sorting a selection that is already in order *)

Section SortedInput.
Context {A : Type} (key : A -> Z).

Lemma insert_least (x : A) (l : list A) :
  Forall (fun y => key x <= key y) l ->
  insert (fun a b => key a - key b) x l = x :: l.
Proof.
  intros H. destruct l as [|y l]; [reflexivity|].
  inversion H as [|? ? Hy _]; subst. cbn.
  replace (key x - key y <=? 0) with true; [reflexivity|].
  symmetry. apply Z.leb_le. lia.
Qed.

Lemma sort_sorted_id (l : list A) :
  StronglySorted (fun a b => key a <= key b) l ->
  sort (fun a b => key a - key b) l = l.
Proof.
  induction 1 as [|x l Hs IH Hx]; [reflexivity|].
  cbn [sort]. rewrite IH. apply insert_least. exact Hx.
Qed.

End SortedInput.

Module SelectionOrder.
Import PDFService Spec.

Lemma StronglySorted_unmap {A B} (f : A -> B) (R : B -> B -> Prop) (l : list A) :
  StronglySorted R (map f l) -> StronglySorted (fun a b => R (f a) (f b)) l.
Proof.
  induction l as [|x l IH]; cbn; intros H; [constructor|].
  inversion H as [|? ? Hs Hx]; subst.
  constructor; [now apply IH|].
  apply Forall_forall. intros y Hy. rewrite Forall_forall in Hx.
  apply Hx. now apply in_map.
Qed.

(** X7: when the selected entries already come in ascending [order], the
    sorted list is the selection with the unselected entries removed:
    nothing is moved. *)
Theorem ordered_selection_kept (selection : list SelectedDocument.t) :
  ascending (orders (filter SelectedDocument.selected selection)) ->
  sortedDocs selection = filter SelectedDocument.selected selection.
Proof.
  intros H. unfold sortedDocs.
  apply (sort_sorted_id SelectedDocument.order).
  now apply StronglySorted_unmap in H.
Qed.

Lemma ordered_selection_kept_witness :
  sortedDocs [Sample.pick "a" true 1; Sample.pick "b" false 0;
              Sample.pick "c" true 1; Sample.pick "offline" true 4]
  = [Sample.pick "a" true 1; Sample.pick "c" true 1; Sample.pick "offline" true 4].
Proof.
  apply (ordered_selection_kept
           [Sample.pick "a" true 1; Sample.pick "b" false 0;
            Sample.pick "c" true 1; Sample.pick "offline" true 4]).
  unfold ascending. cbn.
  repeat constructor; lia.
Defined.

End SelectionOrder.

(** ** Which failure [Promise.all] reports *)

Section FirstRejection.
Context {B : Type}.

Lemma first_rejection_min (rs : list (nat * Result B)) (t : nat) (e : Thrown) :
  first_rejection rs = Some (t, e) ->
  forall t' e', In (t', Throw e') rs -> (t <= t')%nat.
Proof.
  revert t e. induction rs as [|[t0 r0] rs IH]; intros t e; cbn; [discriminate|].
  destruct r0 as [b|e0].
  - intros H t' e' [Hin|Hin]; [discriminate|]. eapply IH; eauto.
  - destruct (first_rejection rs) as [[t1 e1]|] eqn:Ef.
    + destruct (t0 <=? t1)%nat eqn:El; intros H; injection H as <- <-;
        intros t' e' [Hin|Hin].
      * injection Hin as <- _. lia.
      * apply Nat.leb_le in El. specialize (IH _ _ eq_refl _ _ Hin). lia.
      * injection Hin as <- _. apply Nat.leb_gt in El. lia.
      * eapply IH; eauto.
    + intros H; injection H as <- <-. intros t' e' [Hin|Hin].
      * injection Hin as <- _. lia.
      * now apply first_rejection_some in Hin.
Qed.

End FirstRejection.

Module FailureOrder.
Import DocumentService PDFService Spec.
Import DocumentServiceFacts PDFServiceFacts Assembler.

Lemma promise_rejection_source (env : Env) (docs : list SelectedDocument.t)
    (e : Thrown) :
  result_of (documentsWithData_promise env docs) = Throw e ->
  exists d',
    In d' docs /\ retrieval_throws env d' /\
    e = DocumentProcessingError (document_name d') /\
    forall d, In d docs -> retrieval_throws env d ->
              (settle_time env (document_id d') <= settle_time env (document_id d))%nat.
Proof.
  unfold documentsWithData_promise. rewrite Promise_all_result. cbv zeta.
  rewrite map_map. cbn [fst snd].
  destruct (first_rejection _) as [[t e']|] eqn:Ef; [|discriminate].
  intros H; injection H as ->.
  pose proof (first_rejection_min _ _ _ Ef) as Hmin.
  apply first_rejection_in in Ef. apply in_map_iff in Ef.
  destruct Ef as (d' & Hd' & Hin').
  injection Hd' as Ht Hd'. apply documentWithData_throws in Hd' as [Hthrows ->].
  exists d'. repeat split; auto.
  intros d Hin [e0 He0]. rewrite Ht.
  apply (Hmin _ (DocumentProcessingError (document_name d))).
  apply in_map_iff. exists d. split; [|exact Hin].
  rewrite documentWithData_result, He0. reflexivity.
Qed.

(** X8: when the retrievals of several selected documents throw, the
    error names the document whose retrieval settles first: a document
    whose failing retrieval settles strictly before every failing retrieval
    of a document with another name is the one named. *)
Theorem earliest_failure_named (env : Env) (formData : ProjectFormData.t)
    (selection : list SelectedDocument.t) (d : SelectedDocument.t) :
  In d selection -> SelectedDocument.selected d = true ->
  retrieval_throws env d ->
  (forall d', In d' selection -> SelectedDocument.selected d' = true ->
              retrieval_throws env d' ->
              document_name d' = document_name d \/
              (settle_time env (document_id d)
               < settle_time env (document_id d'))%nat) ->
  result_of (generatePacket env formData selection)
  = Throw (DocumentProcessingError (document_name d)).
Proof.
  intros Hin Hsel Hthrows Hfirst.
  assert (Hd : In d (sortedDocs selection)) by (apply In_sortedDocs; auto).
  destruct (promise_rejects env (sortedDocs selection) d Hd Hthrows)
    as (d0 & _ & _ & Hr).
  apply promise_rejection_source in Hr as Hsrc.
  destruct Hsrc as (d' & Hd' & Ht' & He & Hmin).
  rewrite generatePacket_run. cbv zeta.
  destruct (sortedDocs selection) as [|x rest] eqn:Es; [contradiction|].
  destruct (documentsWithData_promise env (x :: rest)) as [r t].
  unfold result_of in Hr |- *. cbn [fst] in Hr |- *. subst r. rewrite He.
  cbn [rethrown DocumentProcessingError].
  assert (Hsel' : In d' selection /\ SelectedDocument.selected d' = true).
  { apply In_sortedDocs. rewrite Es. exact Hd'. }
  destruct (Hfirst d' (proj1 Hsel') (proj2 Hsel') Ht') as [-> | Hlt];
    [reflexivity|].
  specialize (Hmin d Hd Hthrows). lia.
Qed.

Lemma earliest_failure_named_witness :
  let times := fun id => if String.eqb id "b" then 1%nat else 5%nat in
  let env := Scenario.with_retrieval ["a"; "b"] times (Ok Sample.pdf_response) in
  result_of (generatePacket env Sample.formData
               [Sample.pick "a" true 1; Sample.pick "b" true 2;
                Sample.pick "c" true 3])
  = Throw (DocumentProcessingError "Document b").
Proof.
  cbv zeta.
  apply (earliest_failure_named
           (Scenario.with_retrieval ["a"; "b"]
              (fun id => if String.eqb id "b" then 1%nat else 5%nat)
              (Ok Sample.pdf_response))
           Sample.formData
           [Sample.pick "a" true 1; Sample.pick "b" true 2; Sample.pick "c" true 3]
           (Sample.pick "b" true 2)).
  - simpl. auto.
  - reflexivity.
  - exists (NonError "PostgrestError"). reflexivity.
  - intros d' [<-|[<-|[<-|[]]]] _ [e He].
    + right. simpl. lia.
    + left. reflexivity.
    + discriminate.
Defined.

End FailureOrder.

(** ** Validation and upload of a file *)

Module UploadRuns.
Import DocumentService Spec Observed.

Lemma ascii_of_byte_eq (b c : byte) : ascii_of_byte b = ascii_of_byte c -> b = c.
Proof.
  intros H. apply (f_equal byte_of_ascii) in H.
  now rewrite !byte_of_ascii_of_byte in H.
Qed.

Lemma substring_0_0 (s : string) : String.substring 0 0 s = EmptyString.
Proof. now destruct s. Qed.

(** The signature check reads the first four bytes. *)
Lemma signature_check (content : list byte) :
  startsWith (fromCharCode (firstn 5 content)) "%PDF" = true <->
  exists rest, content = (pdf_signature ++ rest)%list.
Proof.
  unfold startsWith, fromCharCode, pdf_signature.
  rewrite String.prefix_correct.
  destruct content as [|b1 [|b2 [|b3 [|b4 rest]]]];
    try (split; [discriminate | intros [r Hr]; discriminate]).
  cbn [firstn string_of_list_byte map string_of_list_ascii
       String.length String.substring].
  rewrite substring_0_0.
  change "%PDF" with (String (ascii_of_byte x25) (String (ascii_of_byte x50)
                        (String (ascii_of_byte x44) (String (ascii_of_byte x46)
                           EmptyString)))).
  split.
  - intros H. injection H as E1 E2 E3 E4.
    apply ascii_of_byte_eq in E1, E2, E3, E4. subst. now exists rest.
  - intros [r Hr]. injection Hr as -> -> -> -> _. reflexivity.
Qed.

(** X9: [validatePDF] accepts a file exactly when its media type is
    [application/pdf], its size is between 1024 and 52428800 bytes, both
    included, it can be read, and its content begins with the four bytes
    [%PDF]; an accepted file carries no error message. *)
Theorem validatePDF_accepts (file : File.t) :
  (Validation.valid (validatePDF file) = true <->
   File.type file = "application/pdf" /\
   1024 <= File.size file <= 52428800 /\
   exists rest, File.bytes file = Ok (pdf_signature ++ rest)%list) /\
  (Validation.valid (validatePDF file) = true ->
   Validation.error (validatePDF file) = None).
Proof.
  unfold validatePDF.
  destruct (String.eqb (File.type file) "application/pdf") eqn:Et; cbn [negb].
  - apply String.eqb_eq in Et.
    destruct (File.size file >? MAX_SIZE) eqn:El.
    + apply Z.gtb_lt in El. unfold MAX_SIZE in El. cbn [Validation.valid].
      split; [|discriminate]. split; [discriminate|]. intros (_ & H & _). lia.
    + destruct (File.size file <? 1024) eqn:Es.
      * apply Z.ltb_lt in Es. cbn [Validation.valid].
        split; [|discriminate]. split; [discriminate|]. intros (_ & H & _). lia.
      * apply Z.ltb_ge in Es.
        assert (Hl : File.size file <= 52428800).
        { destruct (Z.gtb_spec (File.size file) MAX_SIZE) as [Hgt|Hle];
            [discriminate | exact Hle]. }
        destruct (File.bytes file) as [content|e].
        -- cbv zeta.
           destruct (startsWith (fromCharCode (firstn 5 content)) "%PDF") eqn:Hs;
             cbn [negb Validation.valid Validation.error].
           ++ apply signature_check in Hs as [rest ->].
              split; [|reflexivity]. split; [|reflexivity].
              intros _. repeat split; auto. now exists rest.
           ++ split; [|discriminate]. split; [discriminate|].
              intros (_ & _ & rest & Hr). injection Hr as Hr.
              assert (Hok : startsWith (fromCharCode (firstn 5 content)) "%PDF"
                            = true) by (apply signature_check; now exists rest).
              rewrite Hok in Hs. discriminate.
        -- cbn [Validation.valid]. split; [|discriminate].
           split; [discriminate|]. intros (_ & _ & rest & Hr). discriminate.
  - apply String.eqb_neq in Et. cbn [Validation.valid].
    split; [|discriminate]. split; [discriminate|]. intros (H & _). contradiction.
Qed.

Lemma extractDocumentName_typeMap (filename : string) (type : DocumentType) :
  extractDocumentName filename type = typeMap type.
Proof. unfold extractDocumentName, or_string. now destruct type. Qed.

(** X10: the name given to an uploaded document depends on the detected
    type only: [extractDocumentName] answers the label of the type, never
    empty, whatever the file name is. *)
Theorem name_from_type_only (filename filename' : string) (type : DocumentType) :
  extractDocumentName filename type = typeMap type /\
  extractDocumentName filename type = extractDocumentName filename' type /\
  extractDocumentName filename type <> EmptyString.
Proof.
  rewrite !extractDocumentName_typeMap. repeat split.
  destruct type; discriminate.
Qed.

(** The run of [uploadDocument], step by step. *)
Lemma upload_run (env : Env) (file : File.t) (productType : string) :
  uploadDocument env file productType =
  if Validation.valid (validatePDF file) then
    match auth_user env with
    | None =>
        (Throw (ErrorObj "You must be logged in to upload documents"), [AuthGetUser])
    | Some _ =>
        let fileName := upload_path env file productType in
        match storage_upload env fileName file with
        | inr uploadError =>
            (Throw (ErrorObj ("Failed to upload file: " ++ uploadError)),
             [AuthGetUser; StorageUpload fileName file])
        | inl path =>
            let row := upload_row env file productType path in
            match db_insert env row with
            | inr insertError =>
                (Throw (ErrorObj ("Failed to save document metadata: " ++ insertError)),
                 [AuthGetUser; StorageUpload fileName file; DbInsert row;
                  StorageRemove path])
            | inl docData =>
                (Ok (mapDatabaseToDocument docData),
                 [AuthGetUser; StorageUpload fileName file; DbInsert row])
            end
        end
    end
  else
    (Throw (ErrorObj (match Validation.error (validatePDF file) with
                      | Some m => or_string m "Invalid PDF file"
                      | None => "Invalid PDF file"
                      end)), []).
Proof.
  unfold uploadDocument. cbv zeta.
  destruct (Validation.valid (validatePDF file)); cbn [negb]; [|reflexivity].
  unfold try_catch, bind, request, throw, ret.
  destruct (auth_user env) as [user|]; [|reflexivity].
  fold (upload_path env file productType).
  destruct (storage_upload env (upload_path env file productType) file)
    as [path|uploadError]; [|reflexivity].
  replace (extractDocumentName (File.name file) (detectDocumentType (File.name file)))
    with (typeMap (detectDocumentType (File.name file)))
    by (symmetry; apply extractDocumentName_typeMap).
  fold (upload_row env file productType path).
  destruct (db_insert env (upload_row env file productType path))
    as [docData|insertError]; reflexivity.
Qed.

(** X11: without a session nothing is stored: for every file, when
    [getUser] gives no user, [uploadDocument] throws and issues neither a
    storage upload nor an insert. *)
Theorem upload_needs_session (env : Env) (file : File.t) (productType : string) :
  auth_user env = None ->
  (exists m, result_of (uploadDocument env file productType) = Throw (ErrorObj m)) /\
  forallb (fun ev => negb (is_upload_or_insert ev))
          (trace_of (uploadDocument env file productType)) = true /\
  (Validation.valid (validatePDF file) = true ->
   uploadDocument env file productType
   = (Throw (ErrorObj "You must be logged in to upload documents"), [AuthGetUser])).
Proof.
  intros Hu. rewrite upload_run, Hu.
  destruct (Validation.valid (validatePDF file));
    (split; [eexists; reflexivity | split; [reflexivity|]]).
  - reflexivity.
  - discriminate.
Qed.

Lemma upload_needs_session_witness :
  uploadDocument (Scenario.for_upload None inl (fun _ => inr "unused"))
    Sample.pdf_file "underlayment"
  = (Throw (ErrorObj "You must be logged in to upload documents"), [AuthGetUser]).
Proof.
  destruct (upload_needs_session
              (Scenario.for_upload None inl (fun _ => inr "unused"))
              Sample.pdf_file "underlayment") as (_ & _ & H).
  - reflexivity.
  - apply H. reflexivity.
Defined.

(** X12: every row that [uploadDocument] inserts describes an accepted
    file that the storage holds: the insert follows a successful storage
    upload under [productType/...], the row has the name and the size of
    the file, the public URL of the stored path, the label of the detected
    type as its name, and [productType] both as its type and as its product
    type. *)
Theorem inserted_row (env : Env) (file : File.t) (productType : string)
    (row : InsertRow.t) :
  In (DbInsert row) (trace_of (uploadDocument env file productType)) ->
  Validation.valid (validatePDF file) = true /\
  auth_user env <> None /\
  exists path,
    storage_upload env (upload_path env file productType) file = inl path /\
    In (StorageUpload (upload_path env file productType) file)
       (trace_of (uploadDocument env file productType)) /\
    String.prefix (productType ++ "/") (upload_path env file productType) = true /\
    row = upload_row env file productType path /\
    InsertRow.type row = productType /\
    InsertRow.product_type row = productType /\
    InsertRow.filename row = File.name file /\
    InsertRow.size row = File.size file /\
    InsertRow.file_url row = public_url env path /\
    InsertRow.required row = false.
Proof.
  rewrite upload_run.
  destruct (Validation.valid (validatePDF file)); [|intros []].
  destruct (auth_user env) as [user|];
    [|intros [H|[]]; discriminate].
  cbv zeta.
  destruct (storage_upload env (upload_path env file productType) file)
    as [path|uploadError] eqn:Eu;
    [|intros [H|[H|[]]]; discriminate].
  assert (Hp : String.prefix (productType ++ "/") (upload_path env file productType)
               = true).
  { unfold upload_path. rewrite <- JsFacts.append_assoc. apply JsFacts.prefix_app. }
  destruct (db_insert env (upload_row env file productType path));
    unfold trace_of; cbn [snd].
  - intros [H|[H|[H|[]]]]; try discriminate. injection H as <-.
    repeat split; try discriminate. exists path. repeat split; auto.
    right. now left.
  - intros [H|[H|[H|[H|[]]]]]; try discriminate. injection H as <-.
    repeat split; try discriminate. exists path. repeat split; auto.
    right. now left.
Qed.

Lemma inserted_row_witness :
  let env := Scenario.for_upload (Some "admin") inl
               (fun r => inl (Sample.row "new" (InsertRow.file_url r))) in
  InsertRow.type (upload_row env Sample.pdf_file "underlayment"
                    "underlayment/1700000000000-abcdefghi.pdf") = "underlayment" /\
  InsertRow.name (upload_row env Sample.pdf_file "underlayment"
                    "underlayment/1700000000000-abcdefghi.pdf")
    = "Technical Data Sheet".
Proof.
  cbv zeta.
  destruct (inserted_row
              (Scenario.for_upload (Some "admin") inl
                 (fun r => inl (Sample.row "new" (InsertRow.file_url r))))
              Sample.pdf_file "underlayment"
              (upload_row
                 (Scenario.for_upload (Some "admin") inl
                    (fun r => inl (Sample.row "new" (InsertRow.file_url r))))
                 Sample.pdf_file "underlayment"
                 "underlayment/1700000000000-abcdefghi.pdf"))
    as (_ & _ & path & _ & _ & _ & _ & Ht & _).
  - vm_compute. right; right; left. reflexivity.
  - split; [exact Ht | reflexivity].
Defined.

(** X13: the stored file is removed again exactly when the insert fails:
    a removal is issued only for the path the storage answered, after the
    insert of the row was refused, and then the caller gets "Failed to save
    document metadata: ..."; when the insert succeeds the document of the
    inserted row is returned and nothing is removed. *)
Theorem failed_insert_removes_file (env : Env) (file : File.t)
    (productType path : string) :
  Validation.valid (validatePDF file) = true ->
  auth_user env <> None ->
  storage_upload env (upload_path env file productType) file = inl path ->
  (forall insertError,
     db_insert env (upload_row env file productType path) = inr insertError ->
     uploadDocument env file productType
     = (Throw (ErrorObj ("Failed to save document metadata: " ++ insertError)),
        [AuthGetUser; StorageUpload (upload_path env file productType) file;
         DbInsert (upload_row env file productType path); StorageRemove path])) /\
  (forall docData,
     db_insert env (upload_row env file productType path) = inl docData ->
     uploadDocument env file productType
     = (Ok (mapDatabaseToDocument docData),
        [AuthGetUser; StorageUpload (upload_path env file productType) file;
         DbInsert (upload_row env file productType path)])) /\
  (forall path',
     In (StorageRemove path') (trace_of (uploadDocument env file productType)) ->
     path' = path /\
     exists insertError,
       db_insert env (upload_row env file productType path) = inr insertError).
Proof.
  intros Hv Hu Hs. rewrite upload_run, Hv.
  destruct (auth_user env) as [user|]; [|now elim Hu].
  cbv zeta. rewrite Hs.
  destruct (db_insert env (upload_row env file productType path))
    as [docData|insertError]; repeat split;
    try (intros x Hx; now inversion Hx);
    unfold trace_of in *; cbn [snd] in *.
  - destruct H as [H|[H|[H|[]]]]; discriminate.
  - destruct H as [H|[H|[H|[]]]]; discriminate.
  - destruct H as [H|[H|[H|[H|[]]]]]; try discriminate. now injection H.
  - eauto.
Qed.

Lemma failed_insert_removes_file_witness :
  let env := Scenario.for_upload (Some "admin") inl (fun _ => inr "duplicate key") in
  let path := "underlayment/1700000000000-abcdefghi.pdf" in
  uploadDocument env Sample.pdf_file "underlayment"
  = (Throw (ErrorObj "Failed to save document metadata: duplicate key"),
     [AuthGetUser; StorageUpload path Sample.pdf_file;
      DbInsert (upload_row env Sample.pdf_file "underlayment" path);
      StorageRemove path]).
Proof.
  cbv zeta.
  destruct (failed_insert_removes_file
              (Scenario.for_upload (Some "admin") inl (fun _ => inr "duplicate key"))
              Sample.pdf_file "underlayment"
              "underlayment/1700000000000-abcdefghi.pdf") as (H & _).
  - reflexivity.
  - discriminate.
  - reflexivity.
  - apply (H "duplicate key"). reflexivity.
Defined.

Lemma lower_ascii_idempotent (c : ascii) : lower_ascii (lower_ascii c) = lower_ascii c.
Proof. destruct c as [[] [] [] [] [] [] [] []]; reflexivity. Qed.

Lemma toLowerCase_idempotent (s : string) : toLowerCase (toLowerCase s) = toLowerCase s.
Proof.
  induction s as [|c s IH]; cbn; [reflexivity|].
  now rewrite lower_ascii_idempotent, IH.
Qed.

(** X14: the detection of the document type does not see the case of
    letters: two file names that differ only in the case of ASCII letters
    get the same type, and so do a name and its lower-case form. *)
Theorem detection_ignores_case (filename filename' : string) :
  (toLowerCase filename = toLowerCase filename' ->
   detectDocumentType filename = detectDocumentType filename') /\
  detectDocumentType (toLowerCase filename) = detectDocumentType filename.
Proof.
  unfold detectDocumentType. cbv zeta. split.
  - intros ->. reflexivity.
  - rewrite toLowerCase_idempotent. reflexivity.
Qed.

End UploadRuns.

(** ** Listing, updating and deleting documents *)

Module MaintenanceFacts.
Import DocumentService Maintenance Spec DocumentServiceFacts.

Lemma split_at_absent (sep s : string) :
  includes s sep = false -> split_at sep 0 s = [s].
Proof.
  induction s as [|c s IH]; [reflexivity|].
  cbn [includes split_at]. intros H. apply orb_false_iff in H as [Hp Hi].
  rewrite Hp, (IH Hi). reflexivity.
Qed.

Lemma split_at_skip (sep t b : string) :
  split_at sep (String.length t) (t ++ b) = split_at sep 0 b.
Proof.
  induction t as [|c t IH]; cbn [String.length append].
  - reflexivity.
  - cbn [split_at]. exact IH.
Qed.

Lemma prefix_within (p u v : string) :
  String.prefix p (u ++ v) = true -> (String.length p <= String.length u)%nat ->
  String.prefix p u = true.
Proof.
  revert u. induction p as [|c p IH]; intros u; [now destruct u|].
  destruct u as [|d u]; cbn [String.length]; [lia|].
  cbn [append String.prefix]. destruct (ascii_dec c d); [|discriminate].
  intros H Hl. apply IH; [exact H | lia].
Qed.

(** The first occurrence of the separator splits the string. *)
Lemma split_at_first (stem : string) (l : ascii) (a b : string) :
  let sep := stem ++ String l EmptyString in
  includes (a ++ stem) sep = false ->
  split_at sep 0 (a ++ sep ++ b) = a :: split_at sep 0 b.
Proof.
  cbv zeta. set (sep := stem ++ String l EmptyString).
  assert (Hlen : String.length sep = S (String.length stem)).
  { unfold sep. rewrite JsFacts.length_app. cbn. lia. }
  induction a as [|x a IH]; intros H.
  - cbn [append]. destruct sep as [|c sep'] eqn:Es; [discriminate|].
    cbn [append split_at].
    replace (String.prefix (String c sep') (String c (sep' ++ b))) with true
      by (symmetry; apply (JsFacts.prefix_app (String c sep') b)).
    replace (String.length (String c sep') - 1)%nat with (String.length sep')
      by (cbn [String.length]; lia).
    now rewrite split_at_skip.
  - cbn [append includes] in H. apply orb_false_iff in H as [Hp Hi].
    cbn [append split_at].
    destruct (String.prefix sep (String x (a ++ sep ++ b))) eqn:Hq.
    + exfalso.
      assert (Hq' : String.prefix sep
                      (String x (a ++ stem) ++ String l EmptyString ++ b) = true).
      { cbn [append]. unfold sep in Hq at 2.
        rewrite JsFacts.append_assoc in Hq.
        rewrite <- (JsFacts.append_assoc a stem) in Hq. exact Hq. }
      apply prefix_within in Hq'.
      * cbn [append] in Hq'. congruence.
      * rewrite Hlen. cbn [String.length]. rewrite JsFacts.length_app. lia.
    + rewrite (IH Hi). reflexivity.
Qed.

Ltac go := unfold outcome, requests, and_then, ask, core, done, fail;
  cbn [fst snd app map].

Lemma deleteDocument_run (env : Env) (store : Store) (id : string) :
  deleteDocument env store id =
  match select_document env id with
  | Throw e => (Throw e, [Core (DbSelectDocument id)])
  | Ok None => (Throw (ErrorObj "Document not found"), [Core (DbSelectDocument id)])
  | Ok (Some row) =>
      (match db_delete store id with Some e => Throw e | None => Ok tt end,
       ([Core (DbSelectDocument id)] ++ removal_for (DbRow.file_url row)
        ++ [DbDelete id])%list)
  end.
Proof.
  unfold deleteDocument, getDocument, removal_for. cbv zeta.
  unfold bind, request, ret. go.
  destruct (select_document env id) as [[row|]|e]; cbn; try reflexivity.
  unfold split_string.
  destruct (index (split_at bucket_marker 0 (DbRow.file_url row)) 1) as [| |path].
  all: cbn; try (destruct (db_delete store id); reflexivity).
  destruct (emptyb path); cbn; destruct (db_delete store id); reflexivity.
Qed.

Lemma updateDocument_run (env : Env) (store : Store) (id : string)
    (updates : Updates.t) :
  updateDocument env store id updates =
  match select_document env id with
  | Throw e => (Throw e, [Core (DbSelectDocument id)])
  | Ok None => (Throw (ErrorObj "Document not found"), [Core (DbSelectDocument id)])
  | Ok (Some row) =>
      let updateData :=
        {| UpdateData.updated_at := now store;
           UpdateData.name := if_truthy (Updates.name updates);
           UpdateData.description := if_truthy (Updates.description updates);
           UpdateData.required := Updates.required updates;
           UpdateData.type := if_truthy (Updates.type updates) |} in
      (match db_update store id updateData with Some e => Throw e | None => Ok tt end,
       [Core (DbSelectDocument id); DbUpdate id updateData])
  end.
Proof.
  unfold updateDocument, getDocument. cbv zeta.
  unfold bind, request, ret. go.
  destruct (select_document env id) as [[row|]|e]; cbn; try reflexivity.
  destruct (db_update store id _); reflexivity.
Qed.

(** X15: without the record nothing is changed: when the lookup does not
    give a record, [updateDocument] and [deleteDocument] throw after that
    one lookup -- "Document not found" when the record does not exist --
    and ask for no update, no deletion and no file removal. *)
Theorem no_change_without_record (env : Env) (store : Store) (id : string)
    (updates : Updates.t) :
  (forall row, select_document env id <> Ok (Some row)) ->
  requests (deleteDocument env store id) = [Core (DbSelectDocument id)] /\
  requests (updateDocument env store id updates) = [Core (DbSelectDocument id)] /\
  (exists e, outcome (deleteDocument env store id) = Throw e /\
             outcome (updateDocument env store id updates) = Throw e) /\
  (select_document env id = Ok None ->
   outcome (deleteDocument env store id) = Throw (ErrorObj "Document not found") /\
   outcome (updateDocument env store id updates)
     = Throw (ErrorObj "Document not found")).
Proof.
  intros Hno. rewrite deleteDocument_run, updateDocument_run.
  destruct (select_document env id) as [[row|]|e].
  - now elim (Hno row).
  - split; [reflexivity|]. split; [reflexivity|]. split.
    + eexists. split; reflexivity.
    + intros _. split; reflexivity.
  - split; [reflexivity|]. split; [reflexivity|]. split.
    + eexists. split; reflexivity.
    + discriminate.
Qed.

Lemma no_change_without_record_witness :
  outcome (deleteDocument (Sample.env (Ok Sample.pdf_response))
             (sample_store [] []) "missing")
  = Throw (ErrorObj "Document not found").
Proof.
  destruct (no_change_without_record (Sample.env (Ok Sample.pdf_response))
              (sample_store [] []) "missing"
              (Updates.mk None None None None)) as (_ & _ & _ & H).
  - discriminate.
  - apply H. reflexivity.
Defined.

(** X16: the removal of the file is best effort: once the record is found,
    [deleteDocument] deletes the row whatever the storage answers -- the
    row deletion is its last request and alone decides the outcome, so two
    stores that answer the deletion alike give the same outcome. *)
Theorem delete_is_best_effort (env : Env) (store store' : Store) (id : string)
    (row : DbRow.t) :
  select_document env id = Ok (Some row) ->
  db_delete store id = db_delete store' id ->
  outcome (deleteDocument env store id) = outcome (deleteDocument env store' id) /\
  outcome (deleteDocument env store id)
    = match db_delete store id with Some e => Throw e | None => Ok tt end /\
  requests (deleteDocument env store id)
    = ([Core (DbSelectDocument id)] ++ removal_for (DbRow.file_url row)
       ++ [DbDelete id])%list /\
  (removal_for (DbRow.file_url row) = [] \/
   exists path, path <> EmptyString /\
                removal_for (DbRow.file_url row) = [Core (StorageRemove path)]).
Proof.
  intros Hs Hd. rewrite !deleteDocument_run, Hs. unfold outcome, requests.
  cbn [fst snd]. rewrite Hd. repeat split.
  unfold removal_for.
  destruct (index _ 1) as [| |path]; auto.
  destruct path as [|c path]; cbn [emptyb]; [auto|].
  right. eexists. split; [|reflexivity]. discriminate.
Qed.

Lemma delete_is_best_effort_witness :
  outcome (deleteDocument (Sample.env (Ok Sample.pdf_response))
             (sample_store [] []) "a") = Ok tt.
Proof.
  destruct (delete_is_best_effort (Sample.env (Ok Sample.pdf_response))
              (sample_store [] []) (sample_store [] []) "a"
              (Sample.row "a" "https://store.example/a")) as (_ & H & _).
  - reflexivity.
  - reflexivity.
  - exact H.
Defined.

(** X17: for a document whose URL is [base], the bucket marker and a path,
    the marker occurring nowhere else, [deleteDocument] asks the storage to
    remove exactly that path, between the lookup and the row deletion. *)
Theorem delete_removes_stored_path (env : Env) (store : Store) (id : string)
    (row : DbRow.t) (base path : string) :
  select_document env id = Ok (Some row) ->
  DbRow.file_url row = base ++ bucket_marker ++ path ->
  includes (base ++ marker_stem) bucket_marker = false ->
  includes path bucket_marker = false ->
  path <> EmptyString ->
  requests (deleteDocument env store id)
  = [Core (DbSelectDocument id); Core (StorageRemove path); DbDelete id].
Proof.
  intros Hs Hu Hb Hp Hne. rewrite deleteDocument_run, Hs.
  unfold requests. cbn [snd]. unfold removal_for, split_string. rewrite Hu.
  change bucket_marker with (marker_stem ++ String "/"%char EmptyString) at 1 2.
  rewrite (split_at_first marker_stem "/"%char base path Hb).
  change (marker_stem ++ String "/"%char EmptyString) with bucket_marker.
  rewrite (split_at_absent bucket_marker path Hp).
  cbn [index nth_error]. destruct path; [now elim Hne | reflexivity].
Qed.

Lemma delete_removes_stored_path_witness :
  requests (deleteDocument (host_with_stored "underlayment/17-abc.pdf")
              (sample_store [] []) "stored")
  = [Core (DbSelectDocument "stored");
     Core (StorageRemove "underlayment/17-abc.pdf"); DbDelete "stored"].
Proof.
  apply (delete_removes_stored_path (host_with_stored "underlayment/17-abc.pdf")
           (sample_store [] []) "stored"
           (Sample.row "stored"
              ("https://store.example/storage/v1/object/public/documents/"
               ++ "underlayment/17-abc.pdf"))
           "https://store.example" "underlayment/17-abc.pdf").
  - reflexivity.
  - reflexivity.
  - reflexivity.
  - reflexivity.
  - discriminate.
Defined.

(** X18: for a document whose URL does not contain the bucket marker, or
    ends with it, [deleteDocument] deletes the row and asks the storage for
    nothing: the file, if any, stays. *)
Theorem delete_keeps_foreign_file (env : Env) (store : Store) (id : string)
    (row : DbRow.t) :
  select_document env id = Ok (Some row) ->
  includes (DbRow.file_url row) bucket_marker = false \/
  (exists base, DbRow.file_url row = base ++ bucket_marker /\
                includes (base ++ marker_stem) bucket_marker = false) ->
  requests (deleteDocument env store id)
  = [Core (DbSelectDocument id); DbDelete id].
Proof.
  intros Hs Hu. rewrite deleteDocument_run, Hs.
  unfold requests. cbn [snd]. unfold removal_for, split_string.
  destruct Hu as [Hu|(base & Hu & Hb)].
  - rewrite (split_at_absent _ _ Hu). reflexivity.
  - rewrite Hu.
    replace (base ++ bucket_marker) with (base ++ bucket_marker ++ EmptyString)
      by reflexivity.
    change bucket_marker with (marker_stem ++ String "/"%char EmptyString) at 1 2.
    rewrite (split_at_first marker_stem "/"%char base EmptyString Hb).
    reflexivity.
Qed.

Lemma delete_keeps_foreign_file_witness :
  requests (deleteDocument (Sample.env (Ok Sample.pdf_response))
              (sample_store [] []) "a")
  = [Core (DbSelectDocument "a"); DbDelete "a"].
Proof.
  apply (delete_keeps_foreign_file (Sample.env (Ok Sample.pdf_response))
           (sample_store [] []) "a" (Sample.row "a" "https://store.example/a")).
  - reflexivity.
  - left. reflexivity.
Defined.

Lemma if_truthy_spec (field : option string) (text : string) :
  if_truthy field = Some text <-> field = Some text /\ text <> EmptyString.
Proof.
  unfold if_truthy. destruct field as [[|c s]|]; cbn [emptyb]; split.
  - discriminate.
  - intros [H Hne]. injection H as <-. now elim Hne.
  - intros H; injection H as <-. split; [reflexivity | discriminate].
  - intros [H _]. exact H.
  - discriminate.
  - intros [H _]. discriminate.
Qed.

(** X19: on a found record, [updateDocument] writes [updated_at] always,
    [required] as given (also [false]), and [name], [description] and
    [type] only when they are given and not empty: an empty text in the
    update is left out, so a description cannot be cleared. *)
Theorem update_writes_truthy_fields (env : Env) (store : Store) (id : string)
    (updates : Updates.t) (row : DbRow.t) :
  select_document env id = Ok (Some row) ->
  exists data,
    requests (updateDocument env store id updates)
      = [Core (DbSelectDocument id); DbUpdate id data] /\
    outcome (updateDocument env store id updates)
      = match db_update store id data with Some e => Throw e | None => Ok tt end /\
    UpdateData.updated_at data = now store /\
    UpdateData.required data = Updates.required updates /\
    (forall text, UpdateData.name data = Some text <->
                  Updates.name updates = Some text /\ text <> EmptyString) /\
    (forall text, UpdateData.description data = Some text <->
                  Updates.description updates = Some text /\ text <> EmptyString) /\
    (forall text, UpdateData.type data = Some text <->
                  Updates.type updates = Some text /\ text <> EmptyString).
Proof.
  intros Hs. rewrite updateDocument_run, Hs. cbv zeta.
  eexists. split; [reflexivity|]. split; [reflexivity|].
  cbn [UpdateData.updated_at UpdateData.required UpdateData.name
       UpdateData.description UpdateData.type].
  split; [reflexivity|]. split; [reflexivity|].
  split; [|split]; intros text; apply if_truthy_spec.
Qed.

Lemma update_writes_truthy_fields_witness :
  let env := Sample.env (Ok Sample.pdf_response) in
  let store := sample_store [] [] in
  let updates := Updates.mk (Some "Data sheet") (Some EmptyString) (Some false) None in
  exists data,
    requests (updateDocument env store "a" updates)
      = [Core (DbSelectDocument "a"); DbUpdate "a" data] /\
    UpdateData.required data = Some false /\
    UpdateData.description data = None.
Proof.
  cbv zeta.
  destruct (update_writes_truthy_fields (Sample.env (Ok Sample.pdf_response))
              (sample_store [] []) "a"
              (Updates.mk (Some "Data sheet") (Some EmptyString) (Some false) None)
              (Sample.row "a" "https://store.example/a"))
    as (data & Hr & _ & _ & Hq & _ & Hd & _).
  - reflexivity.
  - exists data. split; [exact Hr|]. split; [exact Hq|].
    destruct (UpdateData.description data) as [text|]; [|reflexivity].
    destruct (proj1 (Hd text) eq_refl) as [E Hne].
    injection E as <-. now elim Hne.
Defined.

Lemma collect_fulfilled (env : Env) (documents : list Document.t)
    (results : list (Document.t * string)) :
  (forall doc, In doc documents ->
     forall e, result_of (exportDocumentAsBase64 env (Document.id doc)) <> Throw e) ->
  outcome (collect env documents results)
  = Ok (results ++ flat_map (kept env) documents)%list.
Proof.
  revert results. induction documents as [|doc rest IH]; intros results Hno.
  - cbn. now rewrite app_nil_r.
  - cbn [collect flat_map]. unfold kept at 1.
    specialize (IH) as IH'.
    assert (Hrest : forall d, In d rest ->
              forall e, result_of (exportDocumentAsBase64 env (Document.id d))
                        <> Throw e) by (intros d Hd; apply Hno; now right).
    pose proof (Hno doc (or_introl eq_refl)) as Hdoc. unfold result_of in Hdoc.
    unfold outcome, and_then, core in *.
    destruct (exportDocumentAsBase64 env (Document.id doc)) as [[fileData|e] t];
      cbn [fst snd] in *; [|now elim (Hdoc e)].
    destruct fileData as [| |text].
    + specialize (IH' results Hrest).
      destruct (collect env rest results) as [r t']. cbn [fst] in *. exact IH'.
    + specialize (IH' results Hrest).
      destruct (collect env rest results) as [r t']. cbn [fst] in *. exact IH'.
    + destruct (emptyb text).
      * specialize (IH' results Hrest).
        destruct (collect env rest results) as [r t']. cbn [fst] in *. exact IH'.
      * specialize (IH' (results ++ [(doc, text)])%list Hrest).
        destruct (collect env rest _) as [r t']. cbn [fst] in *.
        rewrite IH', <- app_assoc. reflexivity.
Qed.

Lemma collect_rejected (env : Env) (documents : list Document.t)
    (results : list (Document.t * string)) :
  (exists doc e, In doc documents /\
     result_of (exportDocumentAsBase64 env (Document.id doc)) = Throw e) ->
  exists e, outcome (collect env documents results) = Throw e.
Proof.
  revert results. induction documents as [|doc rest IH]; intros results.
  - intros (d & e & [] & _).
  - intros (d & e & Hin & He). cbn [collect].
    unfold outcome, and_then, core, result_of in *.
    destruct (exportDocumentAsBase64 env (Document.id doc)) as [[fileData|e0] t] eqn:Ex;
      cbn [fst snd]; [|eauto].
    assert (Hrest : exists d' e', In d' rest /\
              fst (exportDocumentAsBase64 env (Document.id d')) = Throw e').
    { destruct Hin as [<-|Hin]; [|eauto].
      rewrite Ex in He. discriminate. }
    destruct fileData as [| |text]; [| |destruct (emptyb text)];
      match goal with
      | |- context [collect env rest ?acc] =>
          destruct (IH acc Hrest) as [e1 He1];
          destruct (collect env rest acc) as [r t'];
          cbn [fst] in *; subst r; eauto
      end.
Qed.

Lemma kept_entry (env : Env) (documents : list Document.t)
    (doc : Document.t) (text : string) :
  In (doc, text) (flat_map (kept env) documents) ->
  In doc documents /\ text <> EmptyString /\
  result_of (exportDocumentAsBase64 env (Document.id doc)) = Ok (Str text).
Proof.
  intros H. apply in_flat_map in H as (d & Hd & Hk).
  unfold kept in Hk. unfold result_of.
  destruct (fst (exportDocumentAsBase64 env (Document.id d))) as [[| |s]|e] eqn:E;
    try contradiction.
  destruct s as [|c s]; cbn [emptyb] in Hk; [contradiction|].
  destruct Hk as [Hk|[]]. injection Hk as <- <-.
  split; [exact Hd|]. split; [discriminate | exact E].
Qed.

(** X20: [getAllDocumentsWithData] lists, in the order of the table, each
    document paired with the non-empty text the encoder answered for it;
    documents for which the encoder answers [null] or an empty text (no
    URL, content that cannot be fetched) are left out; and if the
    retrieval of any document throws, the whole listing throws. *)
Theorem listing_with_data (env : Env) (store : Store)
    (data : option (list DbRow.t)) :
  select_all store = Ok data ->
  let documents :=
    map mapDatabaseToDocument (match data with Some rows => rows | None => [] end) in
  ((forall doc, In doc documents ->
      forall e, result_of (exportDocumentAsBase64 env (Document.id doc)) <> Throw e) ->
   outcome (getAllDocumentsWithData env store)
   = Ok (flat_map (kept env) documents)) /\
  ((exists doc e, In doc documents /\
      result_of (exportDocumentAsBase64 env (Document.id doc)) = Throw e) ->
   exists e, outcome (getAllDocumentsWithData env store) = Throw e) /\
  (forall doc text, In (doc, text) (flat_map (kept env) documents) ->
     In doc documents /\ text <> EmptyString /\
     result_of (exportDocumentAsBase64 env (Document.id doc)) = Ok (Str text)).
Proof.
  intros Hs. cbv zeta.
  set (documents := map mapDatabaseToDocument _).
  assert (Hrun : outcome (getAllDocumentsWithData env store)
                 = outcome (collect env documents [])).
  { unfold getAllDocumentsWithData, getAllDocuments. rewrite Hs.
    unfold outcome, and_then, ask, done. cbn [fst snd app].
    fold documents. now destruct (collect env documents []). }
  rewrite Hrun. split; [|split].
  - intros Hno. now rewrite collect_fulfilled.
  - apply collect_rejected.
  - apply kept_entry.
Qed.

Lemma listing_with_data_witness :
  option_map (map (fun r => Document.id (fst r)))
    (match outcome (getAllDocumentsWithData (Sample.env (Ok Sample.pdf_response))
                      (sample_store [Sample.row "a" "https://store.example/a";
                                     Sample.row "nourl" EmptyString;
                                     Sample.row "offline"
                                       "https://store.example/offline"] []))
     with Ok l => Some l | Throw _ => None end)
  = Some ["a"].
Proof.
  destruct (listing_with_data (Sample.env (Ok Sample.pdf_response))
              (sample_store [Sample.row "a" "https://store.example/a";
                             Sample.row "nourl" EmptyString;
                             Sample.row "offline" "https://store.example/offline"] [])
              (Some [Sample.row "a" "https://store.example/a";
                     Sample.row "nourl" EmptyString;
                     Sample.row "offline" "https://store.example/offline"]))
    as (H & _).
  - reflexivity.
  - rewrite H.
    + reflexivity.
    + intros doc [<-|[<-|[<-|[]]]] e; discriminate.
Defined.

End MaintenanceFacts.

(** ** The admin session and the password hash *)

Module AuthFacts.
Import AuthService.

Lemma hex_value_digit (n : N) : (n < 16)%N -> hex_value (hex_digit n) = Some n.
Proof.
  intros H.
  assert (A : forallb (fun m => match hex_value (hex_digit m) with
                                | Some k => N.eqb k m
                                | None => false
                                end) (map N.of_nat (seq 0 16)) = true)
    by (vm_compute; reflexivity).
  rewrite forallb_forall in A.
  assert (Hin : In n (map N.of_nat (seq 0 16))).
  { apply in_map_iff. exists (N.to_nat n). split; [apply N2Nat.id|].
    apply in_seq. lia. }
  specialize (A n Hin).
  destruct (hex_value (hex_digit n)); [|discriminate].
  apply N.eqb_eq in A. now subst.
Qed.

Lemma unhex_hex (bytes : list byte) : unhex (hex bytes) = Some bytes.
Proof.
  induction bytes as [|b rest IH]; [reflexivity|].
  pose proof (Base64Facts.to_N_lt b) as Hb.
  cbn [hex hex_byte append unhex].
  rewrite !hex_value_digit by Base64Facts.nlia.
  rewrite IH. do 2 f_equal. apply Base64Facts.byte_of_eq. Base64Facts.nlia.
Qed.

Lemma hex_length (bytes : list byte) :
  String.length (hex bytes) = (2 * List.length bytes)%nat.
Proof.
  induction bytes as [|b rest IH]; [reflexivity|].
  cbn [hex hex_byte append String.length List.length]. rewrite IH. lia.
Qed.

Lemma hex_injective (bytes bytes' : list byte) :
  hex bytes = hex bytes' -> bytes = bytes'.
Proof.
  intros H. apply (f_equal unhex) in H. rewrite !unhex_hex in H. now injection H.
Qed.

(** X21: the text of a hash is two lower-case hexadecimal digits per byte
    of the digest and reads back to the digest: different digests never
    give the same text. *)
Theorem hash_text_reads_back (bytes bytes' : list byte) :
  unhex (hex bytes) = Some bytes /\
  String.length (hex bytes) = (2 * List.length bytes)%nat /\
  (hex bytes = hex bytes' <-> bytes = bytes').
Proof.
  split; [apply unhex_hex|]. split; [apply hex_length|].
  split; [apply hex_injective | now intros ->].
Qed.

(** X22: [authenticateAdmin] answers [true] exactly when the row of the
    email is read, the digest of the password is computed, and the stored
    hash is the hexadecimal text of that digest; a failed lookup, a
    missing row and a failed digest all answer [false].  So two passwords
    accepted for one email have the same digest. *)
Theorem authenticate_by_digest (host : Host) (email password password' : string) :
  (authenticateAdmin host email password = true <->
   exists d, admin_row host email = Ok (Data (Some (hex d))) /\
             digest host (encode password) = Ok d) /\
  (authenticateAdmin host email password = true ->
   authenticateAdmin host email password' = true ->
   digest host (encode password) = digest host (encode password')).
Proof.
  assert (Hiff : forall pw, authenticateAdmin host email pw = true <->
            exists d, admin_row host email = Ok (Data (Some (hex d))) /\
                      digest host (encode pw) = Ok d).
  { intros pw. unfold authenticateAdmin, hashPassword.
    destruct (admin_row host email) as [[error|[stored|]]|e];
      try (split; [discriminate | intros (d & H & _); discriminate]).
    destruct (digest host (encode pw)) as [d|e].
    - split.
      + intros H. apply String.eqb_eq in H. subst. eauto.
      + intros (d' & H & Hd). injection H as ->. injection Hd as ->.
        apply String.eqb_refl.
    - split; [discriminate | intros (d & _ & H); discriminate]. }
  split; [apply Hiff|].
  intros H1 H2. apply Hiff in H1 as (d & Hr & Hd). apply Hiff in H2 as (d' & Hr' & Hd').
  rewrite Hr in Hr'. injection Hr' as Hh.
  apply hex_injective in Hh.
  subst. now rewrite Hd, Hd'.
Qed.

Lemma authenticate_by_digest_witness :
  digest (sample_host (Ok None)) (encode "secret")
  = digest (sample_host (Ok None)) (encode "other").
Proof.
  apply (authenticate_by_digest (sample_host (Ok None)) "admin@example.com"
           "secret" "other"); reflexivity.
Defined.

(** X23: when [syncAuth] answers [false], or the listener of auth state
    changes reports [false], the local session is gone, provided
    [removeItem] does not throw: [isAuthenticated] is [false] afterwards.
    And [syncAuth] answers [true] exactly when the remote session has a
    user. *)
Theorem unauthenticated_clears_local (host : Host) (storage : Storage)
    (session : option Session.t) :
  removeItem_throws host = false ->
  (fst (syncAuth host storage) = false ->
   isAuthenticated host (snd (syncAuth host storage)) = false) /\
  (fst (auth_state_listener host session storage) = false ->
   isAuthenticated host (snd (auth_state_listener host session storage)) = false) /\
  (fst (syncAuth host storage) = true <->
   exists user, get_session host = Ok (Some (Session.mk (Some user)))).
Proof.
  intros Hr.
  assert (Hc : isAuthenticated host (clearLocalAdminSession host storage) = false).
  { unfold isAuthenticated, getLocalAdminSession, clearLocalAdminSession.
    rewrite Hr. now destruct (getItem_throws host). }
  unfold syncAuth, auth_state_listener. split; [|split].
  - destruct (get_session host) as [[[[user|]]|]|e]; cbn [fst snd]; auto.
    discriminate.
  - destruct session as [[[user|]]|]; cbn [fst snd]; auto. discriminate.
  - destruct (get_session host) as [[[[user|]]|]|e]; cbn [fst]; split;
      try discriminate; try (intros [u Hu]; discriminate); eauto.
Qed.

Lemma unauthenticated_clears_local_witness :
  isAuthenticated (sample_host (Ok None))
    (snd (syncAuth (sample_host (Ok None)) (Some "{email:admin@example.com}")))
  = false.
Proof.
  destruct (unauthenticated_clears_local (sample_host (Ok None))
              (Some "{email:admin@example.com}") None) as (H & _).
  - reflexivity.
  - apply H. reflexivity.
Defined.

(** X24: when the remote session has a user with a non-empty email, the
    storage works, and the session text is not empty and parses to a value
    other than [null], then after [syncAuth] the local session exists:
    [isAuthenticated] is [true]. *)
Theorem authenticated_sets_local (host : Host) (storage : Storage)
    (email : string) (value : Json) :
  get_session host = Ok (Some (Session.mk (Some (User.mk (Some email))))) ->
  email <> EmptyString ->
  setItem_throws host = false ->
  getItem_throws host = false ->
  session_text host email <> EmptyString ->
  JSON_parse host (session_text host email) = Some value ->
  value <> JNull ->
  fst (syncAuth host storage) = true /\
  isAuthenticated host (snd (syncAuth host storage)) = true.
Proof.
  intros Hs He Hset Hget Ht Hp Hv.
  unfold syncAuth. rewrite Hs. cbn [email_or_empty User.email fst snd].
  split; [reflexivity|].
  destruct email as [|c email]; [now elim He|]. cbn [emptyb].
  unfold isAuthenticated, getLocalAdminSession, setLocalAdminSession.
  rewrite Hset, Hget.
  destruct (session_text host (String c email)) as [|c' text] eqn:Et;
    [now elim Ht|].
  cbn [emptyb]. rewrite Hp. destruct value; try reflexivity. now elim Hv.
Qed.

Lemma authenticated_sets_local_witness :
  let host := sample_host (Ok (Some (Session.mk (Some (User.mk (Some "a@b.c")))))) in
  fst (syncAuth host None) = true /\
  isAuthenticated host (snd (syncAuth host None)) = true.
Proof.
  cbv zeta.
  apply (authenticated_sets_local
           (sample_host (Ok (Some (Session.mk (Some (User.mk (Some "a@b.c")))))))
           None "a@b.c" (JObject [("email", JString "{email:a@b.c}")])).
  - reflexivity.
  - discriminate.
  - reflexivity.
  - reflexivity.
  - discriminate.
  - reflexivity.
  - discriminate.
Defined.

(** X25: [signOut] clears the local session only after the remote sign-out
    returned: if the remote call throws, [signOut] throws the same value
    and the storage is left as it was; if it returns and [removeItem] does
    not throw, [isAuthenticated] is [false] afterwards. *)
Theorem sign_out_local_session (host : Host) (storage : Storage) :
  (forall e, sign_out host = Throw e ->
             signOut host storage = (Throw e, storage)) /\
  (forall u, sign_out host = Ok u ->
             removeItem_throws host = false ->
             fst (signOut host storage) = Ok tt /\
             isAuthenticated host (snd (signOut host storage)) = false).
Proof.
  unfold signOut. split.
  - intros e ->. reflexivity.
  - intros u -> Hr. cbn [fst snd]. split; [reflexivity|].
    unfold isAuthenticated, getLocalAdminSession, clearLocalAdminSession.
    rewrite Hr. now destruct (getItem_throws host).
Qed.

End AuthFacts.

(** ** Documents without content in a posted payload *)

Module MissingContent.
Import DocumentService PDFService Spec Observed.
Import DocumentServiceFacts PDFServiceFacts Assembler Encoder.

Lemma entry_of_document (env : Env) (docs : list SelectedDocument.t)
    (entries : list DocumentEntry.t) (d : SelectedDocument.t) :
  result_of (documentsWithData_promise env docs) = Ok entries ->
  In d docs ->
  exists entry, In entry entries /\ result_of (documentWithData env d) = Ok entry.
Proof.
  intros Hr Hin.
  pose proof (promise_fulfilled env docs entries Hr) as (_ & _ & Hno).
  revert Hr. unfold documentsWithData_promise. rewrite Promise_all_result. cbv zeta.
  rewrite map_map. cbn [fst snd].
  destruct (first_rejection _) as [[t e]|]; [discriminate|].
  intros H; injection H as <-.
  induction docs as [|x docs IH]; [contradiction|].
  cbn [map fulfilled].
  destruct (result_of (documentWithData env x)) as [en|e] eqn:E.
  - destruct Hin as [<-|Hin].
    + exists en. split; [now left | exact E].
    + destruct IH as (entry & He & Hr); auto.
      { intros d' Hd'. apply Hno. now right. }
      exists entry. split; [now right | exact Hr].
  - exfalso. apply documentWithData_throws in E as [Ht _].
    apply (Hno x); [now left | exact Ht].
Qed.

Lemma null_answer (env : Env) (id : string) :
  nothing_to_encode env id \/ content_fetch_fails env id ->
  result_of (exportDocumentAsBase64 env id) = Ok Null.
Proof.
  rewrite export_result.
  intros [[H|(row & H & Hu)]|(row & H & Hu & Hf)]; rewrite H; try reflexivity.
  - rewrite Hu. reflexivity.
  - apply emptyb_false in Hu. rewrite Hu.
    destruct Hf as [[e He]|[e He]]; rewrite He; reflexivity.
Qed.

(** X26: a selected document for which the encoder answers [null] -- no
    record, no URL, or content that cannot be fetched -- does not stop the
    assembly: when no retrieval throws and the catalog is fetched, the
    payload is posted and holds an entry for that document without
    [fileData]. *)
Theorem missing_content_is_posted (env : Env) (formData : ProjectFormData.t)
    (selection : list SelectedDocument.t) (d : SelectedDocument.t) :
  In d selection -> SelectedDocument.selected d = true ->
  nothing_to_encode env (document_id d) \/ content_fetch_fails env (document_id d) ->
  (forall d', In d' selection -> SelectedDocument.selected d' = true ->
              ~ retrieval_throws env d') ->
  (forall e, select_by_product_type env (ProjectFormData.productType formData)
             <> Throw e) ->
  exists p entry,
    In (WorkerPost (workerUrl env ++ "/generate-packet") p)
       (trace_of (generatePacket env formData selection)) /\
    In entry (Payload.documents p) /\
    DocumentEntry.id entry = SelectedDocument.id d /\
    DocumentEntry.name entry = document_name d /\
    DocumentEntry.fileData entry = None.
Proof.
  intros Hin Hsel Hnull Hno Hcat.
  destruct (generatePacket_posts env formData selection) as (p & Hp & _); auto.
  { exists d. auto. }
  exists p.
  pose proof Hp as Hinv.
  apply worker_post_inversion in Hinv as (entries & data & Hr & _ & ->).
  assert (Hd : In d (sortedDocs selection)) by (apply In_sortedDocs; auto).
  destruct (entry_of_document env _ entries d Hr Hd) as (entry & He & Hres).
  exists entry. split; [exact Hp|]. split; [exact He|].
  rewrite documentWithData_result in Hres.
  rewrite (null_answer env _ Hnull) in Hres. injection Hres as <-. auto.
Qed.

Lemma missing_content_is_posted_witness :
  exists p entry,
    In (WorkerPost "https://worker.example/generate-packet" p)
       (trace_of (generatePacket (Sample.env (Ok Sample.pdf_response))
                    Sample.formData [Sample.pick "offline" true 1])) /\
    In entry (Payload.documents p) /\
    DocumentEntry.id entry = "sel-offline" /\
    DocumentEntry.name entry = "Document offline" /\
    DocumentEntry.fileData entry = None.
Proof.
  apply (missing_content_is_posted (Sample.env (Ok Sample.pdf_response))
           Sample.formData [Sample.pick "offline" true 1]
           (Sample.pick "offline" true 1)).
  - left. reflexivity.
  - reflexivity.
  - right. exists (Sample.row "offline" "https://store.example/offline").
    split; [reflexivity|]. split; [discriminate|]. left. eexists. reflexivity.
  - intros d' [<-|[]] _ [e He]. discriminate.
  - discriminate.
Defined.

(** The retrieval of a selected document throws exactly when the lookup
    of its record fails or the reader reports an error on fetched content;
    a throwing fetch is not among these. *)
Lemma retrieval_throws_cases (env : Env) (d : SelectedDocument.t) :
  (retrieval_throws env d <->
   lookup_fails env (document_id d) \/ reader_fails env (document_id d)) /\
  (content_fetch_fails env (document_id d) -> ~ retrieval_throws env d).
Proof.
  split.
  - unfold retrieval_throws, lookup_fails, reader_fails. rewrite export_result.
    destruct (select_document env (document_id d)) as [[row|]|e0] eqn:Es.
    + destruct (emptyb (DbRow.file_url row)) eqn:Eu.
      * apply emptyb_true in Eu. split.
        -- intros [e He]. discriminate.
        -- intros [[e He]|(r & b & Hr & Hu & _)]; [discriminate|].
           injection Hr as <-. contradiction.
      * apply emptyb_false in Eu.
        destruct (http_get env (DbRow.file_url row)) as [[blob|e1]|e1] eqn:Eh.
        -- split.
           ++ intros [e He]. right. exists row, blob. repeat split; auto.
              unfold read_promise in He.
              destruct (reader_error env blob); [reflexivity | discriminate].
           ++ intros [[e He]|(r & b & Hr & Hu & Hg & Hb)]; [discriminate|].
              injection Hr as <-. rewrite Eh in Hg. injection Hg as <-.
              unfold read_promise. rewrite Hb. eauto.
        -- split; [intros [e He]; discriminate|].
           intros [[e He]|(r & b & Hr & Hu & Hg & Hb)]; [discriminate|].
           injection Hr as <-. congruence.
        -- split; [intros [e He]; discriminate|].
           intros [[e He]|(r & b & Hr & Hu & Hg & Hb)]; [discriminate|].
           injection Hr as <-. congruence.
    + split; [intros [e He]; discriminate|].
      intros [[e He]|(r & b & Hr & _)]; discriminate.
    + split; eauto.
  - intros Hf [e He].
    rewrite (null_answer env _ (or_intror Hf)) in He. discriminate.
Qed.

(** C1, as stated, fails: of three selected documents, fetching the
    binary content of [offline] throws; [generatePacket] does not throw
    "Failed to process document: ...": it posts one payload, whose entry
    for [offline] has no [fileData], and returns the packet of the worker. *)
Lemma content_fetch_failure_gives_packet :
  let env := Sample.env (Ok Sample.pdf_response) in
  let selection :=
    [Sample.pick "a" true 1; Sample.pick "offline" true 2; Sample.pick "c" true 3] in
  let offline := Sample.pick "offline" true 2 in
  In offline selection /\ SelectedDocument.selected offline = true /\
  http_get env (Document.url (SelectedDocument.document offline))
    = Throw (TypeErrorObj "Failed to fetch") /\
  content_fetch_fails env (document_id offline) /\
  result_of (generatePacket env Sample.formData selection) = Ok Sample.pdf_bytes /\
  (forall name, result_of (generatePacket env Sample.formData selection)
                <> Throw (DocumentProcessingError name)) /\
  exists p,
    posts (trace_of (generatePacket env Sample.formData selection)) = [p] /\
    map DocumentEntry.id (Payload.documents p) = ["sel-a"; "sel-offline"; "sel-c"] /\
    map DocumentEntry.fileData (Payload.documents p)
      = [Some "JVBERi0xLjQ="; None; Some "JVBERi0xLjQ="].
Proof.
  cbv zeta. split; [simpl; auto|]. split; [reflexivity|]. split; [reflexivity|].
  split.
  - exists (Sample.row "offline" "https://store.example/offline").
    split; [reflexivity|]. split; [discriminate|]. left. eexists. reflexivity.
  - split; [reflexivity|]. split; [discriminate|].
    eexists. split; [vm_compute; reflexivity|]. split; reflexivity.
Qed.

End MissingContent.
